(** * ArtWork gallery: selection and pagination controller

    A shallow embedding of [artwork-gallery/src/api.ts] (the fetch gateway)
    and of the [App] component (selection bookkeeping, multi-page selection,
    pager arithmetic and the top-level view), with the properties of the
    specification proved over it.

    JavaScript numbers that the program uses as integers (page numbers,
    artwork ids, counters, HTTP statuses) are modelled as [Z].  The selection
    object [{ [id: number]: boolean }] is a [gmap Z bool]; the object spread
    [{ ...prev, [k]: v }] and the assignment [obj[k] = v] are both [insert]. *)

From Equations Require Import Equations.
From Equations.Prop Require Import Logic.
From stdpp Require Import gmap strings list fin_maps pretty.

Open Scope Z_scope.

(** ** Data model ([types.ts] as used by the two source files) *)

Record Artwork := mkArtwork {
  id : Z;
  title : option string;
  place_of_origin : option string;
  artist_display : option string;
  inscriptions : option string;
  date_start : option Z;
  date_end : option Z
}.

Record Pagination := mkPagination { total_pages : Z }.

Record ArtworkApiResponse := mkResponse {
  data : list Artwork;
  pagination : Pagination
}.

(** A value that can be thrown: an [Error] object with its [message], or
    anything that is not an instance of [Error]. *)
Inductive Thrown :=
| ErrorObj (message : string)
| NonError.

(** ** The outside world

    [fetch] either rejects (network failure) or resolves to a response with
    a numeric [status]; [response.json()] either rejects (the body does not
    parse) or resolves to the decoded payload. *)

Record Response := mkHttp {
  status : Z;
  json : Thrown + ArtworkApiResponse
}.

(** [response.ok] of the Fetch standard: the status is in the range 200-299. *)
Definition ok (r : Response) : bool :=
  bool_decide (200 ≤ status r ≤ 299).

Inductive FetchOutcome :=
| Rejected (e : Thrown)
| Resolved (r : Response).

(** The remote collection: what a GET of [...?page=n] gives. *)
Definition Network := Z → FetchOutcome.

(** One [console.error(label, error)] call. *)
Record LogEntry := mkLog { label : string; logged : Thrown }.

(** What the program leaves behind: the pages it requested and the console
    lines it wrote, both oldest first. *)
Record World := mkWorld {
  requests : list Z;
  console : list LogEntry
}.

(** ** Effects: a computation reads and extends the world and either
    returns a value or throws. *)

Inductive Completion (A : Type) :=
| Returned (a : A)
| Threw (e : Thrown).
Arguments Returned {A} a.
Arguments Threw {A} e.

Definition Eff (A : Type) : Type := World → World * Completion A.

Definition ret {A} (a : A) : Eff A := λ w, (w, Returned a).

Definition throw {A} (e : Thrown) : Eff A := λ w, (w, Threw e).

Definition bind {A B} (m : Eff A) (k : A → Eff B) : Eff B :=
  λ w, match m w with
       | (w', Returned a) => k a w'
       | (w', Threw e) => (w', Threw e)
       end.

(** [try { body } catch (error) { handler }] *)
Definition try_catch {A} (body : Eff A) (handler : Thrown → Eff A) : Eff A :=
  λ w, match body w with
       | (w', Returned a) => (w', Returned a)
       | (w', Threw e) => handler e w'
       end.

Declare Scope eff_scope.
Delimit Scope eff_scope with eff.
Notation "'let*' x ':=' m 'in' k" := (bind m (λ x, k))
  (at level 10, x name, m at level 100, k at level 200) : eff_scope.
Notation "'do' m 'then' k" := (bind m (λ _, k))
  (at level 10, m at level 100, k at level 200) : eff_scope.

Definition console_error (lbl : string) (e : Thrown) : Eff unit :=
  λ w, (mkWorld (requests w) (console w ++ [mkLog lbl e]), Returned tt).

(** [await fetch(url)] for the page [pageNumber]. *)
Definition http_get (net : Network) (pageNumber : Z) : Eff Response :=
  λ w, let w' := mkWorld (requests w ++ [pageNumber]) (console w) in
       match net pageNumber with
       | Rejected e => (w', Threw e)
       | Resolved r => (w', Returned r)
       end.

(** [await response.json()] *)
Definition response_json (r : Response) : Eff ArtworkApiResponse :=
  match json r with
  | inl e => throw e
  | inr d => ret d
  end.

(** The template literal [`${n}`] for an integer. *)
Definition number_to_string (n : Z) : string := pretty n.

(** ** api.ts *)

Definition fetchArtworks (net : Network) (pageNumber : Z) : Eff ArtworkApiResponse :=
  try_catch
    (let* response := http_get net pageNumber in
     if negb (ok response)
     then throw (ErrorObj ("HTTP error! status: " +:+ number_to_string (status response)))
     else (let* data := response_json response in ret data))%eff
    (λ error, (do console_error "Error fetching artworks:" error then throw error)%eff).


(** ** App.tsx: the component

    One render of [App] closes over the values of its state hooks
    ([AppState]) and over what [useQuery] returned ([QueryResult]).  The
    functions the component defines are written in a section over these two,
    as the closures they are. *)

Record AppState := mkState {
  currentPage : Z;
  selectedArtworkIds : gmap Z bool;
  totalPages : Z;
  rowsToSelect : string;
  isProcessingSelection : bool;
  isDropdownOpen : bool
}.

Record QueryResult := mkQuery {
  apiResponse : option ArtworkApiResponse;
  isLoading : bool;
  error : option Thrown
}.

Definition initialState : AppState := mkState 1 ∅ 0 "" false false.

(** A state setter replaces one hook and leaves the others. *)
Definition setCurrentPage (p : Z) (s : AppState) : AppState :=
  mkState p (selectedArtworkIds s) (totalPages s) (rowsToSelect s)
          (isProcessingSelection s) (isDropdownOpen s).

Definition setTotalPages (t : Z) (s : AppState) : AppState :=
  mkState (currentPage s) (selectedArtworkIds s) t (rowsToSelect s)
          (isProcessingSelection s) (isDropdownOpen s).

(** [setSelectedArtworkIds(prev => ...)]: the updater is applied to the
    stored mapping. *)
Definition setSelectedArtworkIds (upd : gmap Z bool → gmap Z bool) (s : AppState) : AppState :=
  mkState (currentPage s) (upd (selectedArtworkIds s)) (totalPages s) (rowsToSelect s)
          (isProcessingSelection s) (isDropdownOpen s).

(** The running pair of the two [for ... of] loops of
    [performMultiPageSelection]. *)
Record Marked := mkMarked {
  currentSelections : gmap Z bool;
  selectedCount : Z
}.

(** [for (const artwork of artworks) { if (selectedCount < numToSelect)
    { currentSelections[artwork.id] = true; selectedCount++ } else break }];
    the source has this loop twice, for the current page and for each
    fetched page. *)
Fixpoint selectArtworks (numToSelect : Z) (artworks : list Artwork) (m : Marked) : Marked :=
  match artworks with
  | [] => m
  | artwork :: rest =>
      if selectedCount m <? numToSelect
      then selectArtworks numToSelect rest
             (mkMarked (<[id artwork := true]> (currentSelections m)) (selectedCount m + 1))
      else m
  end.

(** How one turn of the [while] loop ends. *)
Inductive LoopStep :=
| Continue (m : Marked)
| Break.

(** The body of the [while] loop, after [pageToFetch++]. *)
Definition selectionStep (net : Network) (numToSelect pageToFetch : Z) (m : Marked)
  : Eff LoopStep :=
  try_catch
    (let* pageData := fetchArtworks net pageToFetch in
     ret (Continue (selectArtworks numToSelect (data pageData) m)))%eff
    (λ error,
      (do console_error
            ("Error fetching page " +:+ number_to_string pageToFetch +:+ " for selection:")
            error
       then ret Break)%eff).

(** [while (selectedCount < numToSelect && pageToFetch < totalPages) ...];
    every turn moves [pageToFetch] one page closer to [totalPages]. *)
Equations? selectionLoop (net : Network) (numToSelect totalPages : Z)
    (m : Marked) (pageToFetch : Z) (w : World) : World * Completion Marked
    by wf (Z.to_nat (totalPages - pageToFetch)) lt :=
  selectionLoop net numToSelect totalPages m pageToFetch w
    with inspect ((selectedCount m <? numToSelect) && (pageToFetch <? totalPages)) := {
    | exist _ true Hcond =>
        match selectionStep net numToSelect (pageToFetch + 1) m w with
        | (w', Returned (Continue m')) =>
            selectionLoop net numToSelect totalPages m' (pageToFetch + 1) w'
        | (w', Returned Break) => (w', Returned m)
        | (w', Threw e) => (w', Threw e)
        end
    | exist _ false Hcond => (w, Returned m) }.
Proof. apply andb_prop in Hcond as [_ Hlt]. apply Z.ltb_lt in Hlt. lia. Qed.

(** The screens of [App]. *)
Record GalleryView := mkGallery {
  rows : list Artwork;
  selectedTotal : nat;
  selectedOnPage : option nat;
  clearAllButton : bool;
  paginationBar : option (list Z)
}.

Inductive View :=
| ErrorMessage (text : string)
| InfoMessage (text : string)
| LoadingOverlay (text : string)
| Gallery (g : GalleryView).

Section Component.

Variable s : AppState.
Variable q : QueryResult.

(** [apiResponse?.data || []] *)
Definition currentPageArtworks : list Artwork :=
  match apiResponse q with
  | Some r => data r
  | None => []
  end.

(** [apiResponse?.pagination] *)
Definition paginationInfo : option Pagination :=
  pagination <$> apiResponse q.

(** The [useEffect] that learns the number of pages. *)
Definition updateTotalPages : AppState :=
  match paginationInfo with
  | Some info =>
      if bool_decide (total_pages info ≠ totalPages s)
      then setTotalPages (total_pages info) s
      else s
  | None => s
  end.

Definition isArtworkSelected (artworkId : Z) : bool :=
  bool_decide (selectedArtworkIds s !! artworkId = Some true).

Definition areAllCurrentPageArtworksSelected : bool :=
  if bool_decide (length currentPageArtworks = 0%nat) then false
  else forallb (λ artwork, isArtworkSelected (id artwork)) currentPageArtworks.

Definition getCurrentPageSelectedCount : nat :=
  if bool_decide (length currentPageArtworks = 0%nat) then 0%nat
  else length (filter (λ artwork, isArtworkSelected (id artwork) = true) currentPageArtworks).

(** [Object.values(selectedArtworkIds).filter(isSelected => isSelected).length] *)
Definition getTotalSelectedArtworkCount : nat :=
  length (filter (λ isSelected : bool, isSelected = true)
                 (snd <$> map_to_list (selectedArtworkIds s))).

(** The updater [toggleArtworkSelection] hands to [setSelectedArtworkIds]:
    the new flag is computed from the rendered mapping, the spread is of the
    stored one. *)
Definition toggleArtworkSelection (artworkId : Z) : gmap Z bool → gmap Z bool :=
  let isCurrentlySelected := isArtworkSelected artworkId in
  λ prevSelection, <[artworkId := negb isCurrentlySelected]> prevSelection.

Definition toggleAllCurrentPageArtworks : gmap Z bool → gmap Z bool :=
  let allCurrentlySelected := areAllCurrentPageArtworksSelected in
  let currentPageArtworkIds := id <$> currentPageArtworks in
  λ prevSelection,
    foldl (λ updatedSelection artworkId,
             <[artworkId := negb allCurrentlySelected]> updatedSelection)
          prevSelection currentPageArtworkIds.

Definition clearAllSelections : gmap Z bool → gmap Z bool :=
  λ _, ∅.

(** The mapping [performMultiPageSelection] passes to
    [setSelectedArtworkIds] when it is done. *)
Definition performMultiPageSelection (net : Network) (numToSelect : Z)
  : Eff (gmap Z bool) :=
  let onCurrentPage :=
    selectArtworks numToSelect currentPageArtworks
                   (mkMarked (selectedArtworkIds s) 0) in
  (let* m := selectionLoop net numToSelect (totalPages s) onCurrentPage (currentPage s) in
   ret (currentSelections m))%eff.

Definition goToFirstPage : AppState := setCurrentPage 1 s.

Definition goToLastPage : AppState := setCurrentPage (totalPages s) s.

Definition goToPage (pageNumber : Z) : AppState :=
  if (pageNumber >=? 1) && (pageNumber <=? totalPages s)
  then setCurrentPage pageNumber s
  else s.

(** [for (let i = lo; i <= hi; i++) range.push(i)] *)
Definition pushRange (lo hi : Z) : list Z := seqZ lo (hi - lo + 1).

Definition getVisiblePageNumbers : list Z :=
  let delta := 2 in
  let range :=
    pushRange (Z.max 2 (currentPage s - delta))
              (Z.min (totalPages s - 1) (currentPage s + delta)) in
  let rangeWithDots :=
    if currentPage s - delta >? 2 then [1; -1] else [1] in
  let rangeWithDots := rangeWithDots ++ range in
  if currentPage s + delta <? totalPages s - 1
  then rangeWithDots ++ [-1; totalPages s]
  else if totalPages s >? 1
       then rangeWithDots ++ [totalPages s]
       else rangeWithDots.

(** What the component returns: one of its four screens. *)
Definition App : View :=
  match error q with
  | Some thrown =>
      let errorMessage :=
        match thrown with
        | ErrorObj message => message
        | NonError => "Unknown error"
        end in
      ErrorMessage ("Failed to load artworks: " +:+ errorMessage)
  | None =>
      if negb (isLoading q) && bool_decide (length currentPageArtworks = 0%nat)
      then InfoMessage "No artworks found for this page."
      else
        let selectedCount := getTotalSelectedArtworkCount in
        let hasSelections := bool_decide (0 < selectedCount)%nat in
        let hasData := bool_decide (0 < length currentPageArtworks)%nat in
        if isLoading q || isProcessingSelection s
        then LoadingOverlay (if isProcessingSelection s
                             then "Selecting rows..." else "Loading artworks...")
        else Gallery (mkGallery
               currentPageArtworks
               selectedCount
               (if hasData then Some getCurrentPageSelectedCount else None)
               hasSelections
               (if hasData && (totalPages s >? 1)
                then Some getVisiblePageNumbers else None))
  end.

End Component.

(** ** Events

    A click is handled by the handler of the render on screen, and the
    updater it builds is applied to the stored state, which is the state
    that render was made from. *)

Definition clickRowCheckbox (s : AppState) (artworkId : Z) : AppState :=
  setSelectedArtworkIds (toggleArtworkSelection s artworkId) s.

Definition clickSelectAll (s : AppState) (q : QueryResult) : AppState :=
  setSelectedArtworkIds (toggleAllCurrentPageArtworks s q) s.

Definition clickClearAll (s : AppState) : AppState :=
  setSelectedArtworkIds clearAllSelections s.

(** The rows of the data table a screen shows. *)
Definition renderedRows (v : View) : list Artwork :=
  match v with
  | Gallery g => rows g
  | _ => []
  end.

(** The pager state of the specification: the current page is at least 1
    and the number of pages is not negative. *)
Definition pagerInvariant (s : AppState) : Prop :=
  1 ≤ currentPage s ∧ 0 ≤ totalPages s.

(** ** Vocabulary of the statements *)

(** How [fetchArtworks] settles for a page: with the decoded payload, or with
    the error it throws ([fetchArtworks_settles] below). *)
Definition fetched (net : Network) (pageNumber : Z) : Thrown + ArtworkApiResponse :=
  match net pageNumber with
  | Rejected e => inl e
  | Resolved r =>
      if ok r then json r
      else inl (ErrorObj ("HTTP error! status: " +:+ number_to_string (status r)))
  end.

(** The records of a page that loads (none for a page that does not). *)
Definition pageData (net : Network) (pageNumber : Z) : list Artwork :=
  match fetched net pageNumber with
  | inr d => data d
  | inl _ => []
  end.

(** The pages [from + 1, ..., upto], in ascending order. *)
Definition pagesAfter (from upto : Z) : list Z := seqZ (from + 1) (upto - from).

(** The records of the current page followed by those of the pages after it
    up to and including [upto], in page and display order. *)
Definition artworksUpTo (s : AppState) (q : QueryResult) (net : Network) (upto : Z)
  : list Artwork :=
  currentPageArtworks q ++ (pagesAfter (currentPage s) upto ≫= pageData net).

(** Everything from the current page on. *)
Definition forwardArtworks (s : AppState) (q : QueryResult) (net : Network) : list Artwork :=
  artworksUpTo s q net (totalPages s).

(** The world after one more request. *)
Definition requested (w : World) (pageNumber : Z) : World :=
  mkWorld (requests w ++ [pageNumber]) (console w).

(** The state once [setSelectedArtworkIds(currentSelections)] has stored the
    mapping [performMultiPageSelection] computed. *)
Definition withSelection (sel : gmap Z bool) (s : AppState) : AppState :=
  setSelectedArtworkIds (λ _, sel) s.

(** ** Sample inputs *)

Definition artwork (i : Z) : Artwork := mkArtwork i None None None None None None.

Definition page (ids : list Z) (total : Z) : ArtworkApiResponse :=
  mkResponse (artwork <$> ids) (mkPagination total).

(** A collection of three pages that all load: page 2 has one record, page
    3 has two. *)
Definition sampleNet : Network := λ p,
  if bool_decide (p = 2) then Resolved (mkHttp 200 (inr (page [21] 3)))
  else if bool_decide (p = 3) then Resolved (mkHttp 200 (inr (page [31; 32] 3)))
  else Resolved (mkHttp 404 (inl NonError)).

(** Page 1 of that collection on screen, nothing selected. *)
Definition sampleState : AppState := mkState 1 ∅ 3 "" false false.
Definition sampleQuery : QueryResult := mkQuery (Some (page [11; 12] 3)) false None.

(** The scenario of the specification: twelve pages, twelve records on page
    1, one record on page 2, and page 3 answers with status 500. *)
Definition scenarioNet : Network := λ p,
  if bool_decide (p = 2) then Resolved (mkHttp 200 (inr (page [102] 12)))
  else Resolved (mkHttp 500 (inl NonError)).

Definition scenarioState : AppState := mkState 1 ∅ 12 "" false false.
Definition scenarioQuery : QueryResult :=
  mkQuery (Some (page [1; 2; 3; 4; 5; 6; 7; 8; 9; 10; 11; 12] 12)) false None.

Definition emptyWorld : World := mkWorld [] [].

(** ** The rest of the component *)

Definition setRowsToSelect (v : string) (s : AppState) : AppState :=
  mkState (currentPage s) (selectedArtworkIds s) (totalPages s) v
          (isProcessingSelection s) (isDropdownOpen s).

Definition setIsProcessingSelection (b : bool) (s : AppState) : AppState :=
  mkState (currentPage s) (selectedArtworkIds s) (totalPages s) (rowsToSelect s)
          b (isDropdownOpen s).

Definition setIsDropdownOpen (b : bool) (s : AppState) : AppState :=
  mkState (currentPage s) (selectedArtworkIds s) (totalPages s) (rowsToSelect s)
          (isProcessingSelection s) b.

(** What an event handler acts on: the outside world, the state React has
    stored, and the [alert] boxes shown so far. *)
Record Browser := mkBrowser {
  world : World;
  stored : AppState;
  alerts : list string
}.

Definition Act (A : Type) : Type := Browser → Browser * Completion A.

Definition act_ret {A} (a : A) : Act A := λ b, (b, Returned a).

Definition act_bind {A B} (m : Act A) (k : A → Act B) : Act B :=
  λ b, match m b with
       | (b', Returned a) => k a b'
       | (b', Threw e) => (b', Threw e)
       end.

Declare Scope act_scope.
Delimit Scope act_scope with act.
Notation "'let*' x ':=' m 'in' k" := (act_bind m (λ x, k))
  (at level 10, x name, m at level 100, k at level 200) : act_scope.
Notation "'do' m 'then' k" := (act_bind m (λ _, k))
  (at level 10, m at level 100, k at level 200) : act_scope.

(** [await m] for a computation on the outside world. *)
Definition await {A} (m : Eff A) : Act A :=
  λ b, match m (world b) with
       | (w', c) => (mkBrowser w' (stored b) (alerts b), c)
       end.

(** A call of a state setter. *)
Definition setState (f : AppState → AppState) : Act unit :=
  λ b, (mkBrowser (world b) (f (stored b)) (alerts b), Returned tt).

Definition alert (message : string) : Act unit :=
  λ b, (mkBrowser (world b) (stored b) (alerts b ++ [message]), Returned tt).

(** [try { body } finally { cleanup }]: the cleanup runs on either way out
    of the body, and the body's completion stands unless the cleanup itself
    throws. *)
Definition try_finally {A} (body : Act A) (cleanup : Act unit) : Act A :=
  λ b, match body b with
       | (b', c) =>
           match cleanup b' with
           | (b'', Returned _) => (b'', c)
           | (b'', Threw e) => (b'', Threw e)
           end
       end.

Section Handlers.

(** [parseInt(text, 10)] of the JavaScript library, [None] standing for
    [NaN]; the component only asks whether the result is [NaN] and how it
    compares with 0. *)
Variable parseInt : string → option Z.

Variable s : AppState.
Variable q : QueryResult.
Variable net : Network.

Definition handleSelectRows : Act unit :=
  let num := parseInt (rowsToSelect s) in
  let invalid :=
    alert "Please enter a valid positive number of rows to select." in
  match num with
  | None => invalid
  | Some num =>
      if num <=? 0 then invalid
      else
        (do setState (setIsProcessingSelection true) then
         try_finally
           (let* currentSelections := await (performMultiPageSelection s q net num) in
            setState (withSelection currentSelections))
           (do setState (setIsProcessingSelection false) then
            do setState (setRowsToSelect "") then
            setState (setIsDropdownOpen false)))%act
  end.

(** [const isFirstPage = currentPage === 1] and
    [const isLastPage = currentPage === totalPages], which disable the
    previous and next buttons. *)
Definition isFirstPage : bool := bool_decide (currentPage s = 1).
Definition isLastPage : bool := bool_decide (currentPage s = totalPages s).

(** The inline handlers of the previous and next buttons. *)
Definition clickPreviousPage : AppState := setCurrentPage (currentPage s - 1) s.
Definition clickNextPage : AppState := setCurrentPage (currentPage s + 1) s.

End Handlers.

(** A cell value of type [string | number | null]. *)
Inductive DisplayValue :=
| Text (t : string)
| Number (n : Z).

Definition formatDisplayValue (value : option DisplayValue) : string :=
  match value with
  | None => "N/A"
  | Some (Text "") => "N/A"
  | Some (Text t) => t
  | Some (Number n) => number_to_string n
  end.

(** [text.substring(0, maxLength)]: a negative bound counts as 0. *)
Definition substring0 (maxLength : Z) (text : string) : string :=
  String.substring 0 (Z.to_nat maxLength) text.

(** Strings are sequences of code units, and [String.length] counts them
    as [text.length] does. *)
Definition truncateLongText (text : option string) (maxLength : Z) : string :=
  match text with
  | None => "N/A"
  | Some "" => "N/A"
  | Some text =>
      if Z.of_nat (String.length text) <=? maxLength then text
      else substring0 maxLength text +:+ "..."
  end.

(** The cells of a row. *)
Definition renderArtworkTitle (artwork : Artwork) : string :=
  formatDisplayValue (Text <$> title artwork).
Definition renderPlaceOfOrigin (artwork : Artwork) : string :=
  formatDisplayValue (Text <$> place_of_origin artwork).
Definition renderArtistName (artwork : Artwork) : string :=
  formatDisplayValue (Text <$> artist_display artwork).
Definition renderInscriptions (artwork : Artwork) : string :=
  truncateLongText (inscriptions artwork) 40.
Definition renderStartDate (artwork : Artwork) : string :=
  formatDisplayValue (Number <$> date_start artwork).
Definition renderEndDate (artwork : Artwork) : string :=
  formatDisplayValue (Number <$> date_end artwork).

(** The state in which the page on screen is one of the pages there are. *)
Definition pageInRange (s : AppState) : Prop :=
  1 ≤ currentPage s ≤ totalPages s.

(** More sample inputs: a stand-in for [parseInt] that reads the one text
    "3", the sample page with 3 typed into the form, and a browser that has
    done nothing yet. *)
Definition sampleParseInt : string → option Z := λ text,
  if decide (text = "3") then Some 3 else None.

Definition sampleForm : AppState := setRowsToSelect "3" sampleState.

Definition sampleBrowser : Browser := mkBrowser emptyWorld sampleForm [].

(** * Properties *)

(** ** Selection lookups *)

Lemma isArtworkSelected_setSelected (s : AppState) upd (i : Z) :
  isArtworkSelected (setSelectedArtworkIds upd s) i
  = bool_decide (upd (selectedArtworkIds s) !! i = Some true).
Proof. reflexivity. Qed.

Lemma isArtworkSelected_true (s : AppState) (i : Z) :
  isArtworkSelected s i = true ↔ selectedArtworkIds s !! i = Some true.
Proof. unfold isArtworkSelected. apply bool_decide_eq_true. Qed.

Lemma isArtworkSelected_false (s : AppState) (i : Z) :
  isArtworkSelected s i = false ↔ selectedArtworkIds s !! i ≠ Some true.
Proof. unfold isArtworkSelected. apply bool_decide_eq_false. Qed.

(** Writing the same flag at every id of a list. *)
Lemma lookup_foldl_insert (b : bool) (ids : list Z) (prev : gmap Z bool) (j : Z) :
  foldl (λ upd i, <[i := b]> upd) prev ids !! j
  = if decide (j ∈ ids) then Some b else prev !! j.
Proof.
  revert prev. induction ids as [|i ids IH]; intros prev.
  - rewrite decide_False; [done | apply not_elem_of_nil].
  - cbn [foldl]. rewrite IH. destruct (decide (j ∈ ids)) as [Hj|Hj].
    + rewrite decide_True; [done | by right].
    + destruct (decide (j = i)) as [->|Hne].
      * rewrite decide_True; [|by left]. by rewrite lookup_insert_eq.
      * rewrite decide_False; [by rewrite lookup_insert_ne|].
        intros Hin. apply elem_of_cons in Hin as [?|?]; done.
Qed.

(** [areAllCurrentPageArtworksSelected]: the page has records and all of
    them are selected. *)
Lemma areAll_spec (s : AppState) (q : QueryResult) :
  areAllCurrentPageArtworksSelected s q = true
  ↔ currentPageArtworks q ≠ [] ∧
    ∀ a, a ∈ currentPageArtworks q → isArtworkSelected s (id a) = true.
Proof.
  unfold areAllCurrentPageArtworksSelected.
  case_bool_decide as Hlen.
  - apply length_zero_iff_nil in Hlen. split; [done | intros [? _]; done].
  - rewrite forallb_forall. split.
    + intros Hall. split; [by intros Heq; rewrite Heq in Hlen|].
      intros a Ha. apply Hall. by apply list_elem_of_In.
    + intros [_ Hall] a Ha. apply Hall. by apply list_elem_of_In.
Qed.

(** ** The fetch gateway and the multi-page loop *)

(** [fetchArtworks] makes one request; it returns the payload of a page
    that loads, and logs and rethrows the error of one that does not. *)
Lemma fetchArtworks_settles (net : Network) (pageNumber : Z) (w : World) :
  fetchArtworks net pageNumber w
  = match fetched net pageNumber with
    | inr d => (requested w pageNumber, Returned d)
    | inl e =>
        (mkWorld (requests w ++ [pageNumber])
                 (console w ++ [mkLog "Error fetching artworks:" e]),
         Threw e)
    end.
Proof.
  unfold fetchArtworks, fetched, try_catch, bind, http_get, response_json, requested.
  destruct (net pageNumber) as [e|r]; [reflexivity|].
  destruct (ok r); cbn; [|reflexivity].
  destruct (json r) as [e|d]; reflexivity.
Qed.

(** One turn of the loop never throws: a failed fetch is logged and ends
    the loop. *)
Lemma selectionStep_settles net numToSelect pageToFetch m w :
  selectionStep net numToSelect pageToFetch m w
  = match fetched net pageToFetch with
    | inr d => (requested w pageToFetch,
                Returned (Continue (selectArtworks numToSelect (data d) m)))
    | inl e =>
        (mkWorld (requests w ++ [pageToFetch])
           (console w ++
              [mkLog "Error fetching artworks:" e;
               mkLog ("Error fetching page " +:+ number_to_string pageToFetch
                      +:+ " for selection:") e]),
         Returned Break)
    end.
Proof.
  unfold selectionStep, try_catch, bind. rewrite fetchArtworks_settles.
  destruct (fetched net pageToFetch) as [e|d]; [|reflexivity].
  cbn. by rewrite <- app_assoc.
Qed.

(** The [while] loop, one turn unfolded. *)
Lemma selectionLoop_body net numToSelect totalPages m pageToFetch w :
  selectionLoop net numToSelect totalPages m pageToFetch w
  = if (selectedCount m <? numToSelect) && (pageToFetch <? totalPages)
    then match selectionStep net numToSelect (pageToFetch + 1) m w with
         | (w', Returned (Continue m')) =>
             selectionLoop net numToSelect totalPages m' (pageToFetch + 1) w'
         | (w', Returned Break) => (w', Returned m)
         | (w', Threw e) => (w', Threw e)
         end
    else (w, Returned m).
Proof.
  funelim (selectionLoop net numToSelect totalPages m pageToFetch w);
    by rewrite Hcond.
Qed.

(** The [while] loop in terms of how each page settles. *)
Lemma selectionLoop_turn net numToSelect totalPages m pageToFetch w :
  selectionLoop net numToSelect totalPages m pageToFetch w
  = if (selectedCount m <? numToSelect) && (pageToFetch <? totalPages)
    then match fetched net (pageToFetch + 1) with
         | inr d =>
             selectionLoop net numToSelect totalPages
               (selectArtworks numToSelect (data d) m) (pageToFetch + 1)
               (requested w (pageToFetch + 1))
         | inl e =>
             (mkWorld (requests w ++ [pageToFetch + 1])
                (console w ++
                   [mkLog "Error fetching artworks:" e;
                    mkLog ("Error fetching page " +:+ number_to_string (pageToFetch + 1)
                           +:+ " for selection:") e]),
              Returned m)
         end
    else (w, Returned m).
Proof.
  rewrite selectionLoop_body, selectionStep_settles.
  by destruct (fetched net (pageToFetch + 1)).
Qed.

(** *** The inner [for ... of] loop *)

Lemma selectArtworks_full numToSelect artworks m :
  numToSelect ≤ selectedCount m → selectArtworks numToSelect artworks m = m.
Proof.
  intros Hfull. destruct artworks as [|a l]; [done|]. cbn.
  by rewrite (proj2 (Z.ltb_ge _ _) Hfull).
Qed.

Lemma selectArtworks_app numToSelect l1 l2 m :
  selectArtworks numToSelect (l1 ++ l2) m
  = selectArtworks numToSelect l2 (selectArtworks numToSelect l1 m).
Proof.
  revert m. induction l1 as [|a l1 IH]; intros m; [done|]. cbn.
  destruct (selectedCount m <? numToSelect) eqn:Hlt; [apply IH|].
  symmetry. apply selectArtworks_full. by apply Z.ltb_ge.
Qed.

(** What the loop leaves: the first [numToSelect - selectedCount] records are
    marked, in order, and counted. *)
Lemma selectArtworks_take numToSelect artworks m :
  let taken := take (Z.to_nat (numToSelect - selectedCount m)) artworks in
  selectArtworks numToSelect artworks m
  = mkMarked (foldl (λ sel i, <[i := true]> sel) (currentSelections m) (id <$> taken))
             (selectedCount m + Z.of_nat (length taken)).
Proof.
  revert m. induction artworks as [|a l IH]; intros m; cbn zeta.
  - rewrite take_nil. cbn. destruct m; cbn. f_equal. lia.
  - cbn [selectArtworks]. destruct (selectedCount m <? numToSelect) eqn:Hlt.
    + apply Z.ltb_lt in Hlt. rewrite IH. cbn [selectedCount currentSelections].
      replace (Z.to_nat (numToSelect - selectedCount m))
        with (S (Z.to_nat (numToSelect - (selectedCount m + 1)))) by lia.
      cbn. f_equal. lia.
    + apply Z.ltb_ge in Hlt.
      replace (Z.to_nat (numToSelect - selectedCount m)) with 0%nat by lia.
      cbn. destruct m; cbn. f_equal. lia.
Qed.

Lemma selectArtworks_count_le numToSelect artworks m :
  selectedCount m ≤ selectedCount (selectArtworks numToSelect artworks m).
Proof. rewrite selectArtworks_take. cbn. lia. Qed.

Lemma selectArtworks_lookup numToSelect artworks m (i : Z) :
  currentSelections (selectArtworks numToSelect artworks m) !! i
  = if decide (i ∈ id <$> take (Z.to_nat (numToSelect - selectedCount m)) artworks)
    then Some true else currentSelections m !! i.
Proof. rewrite selectArtworks_take. cbn. apply lookup_foldl_insert. Qed.

Lemma selectArtworks_keeps numToSelect artworks m (i : Z) :
  currentSelections m !! i = Some true →
  currentSelections (selectArtworks numToSelect artworks m) !! i = Some true.
Proof. intros Hi. rewrite selectArtworks_lookup. by case_decide. Qed.

(** *** Pages after a page *)

Lemma pagesAfter_nil (from upto : Z) : upto ≤ from → pagesAfter from upto = [].
Proof. intros. unfold pagesAfter. apply seqZ_nil. lia. Qed.

Lemma pagesAfter_cons (from upto : Z) :
  from < upto → pagesAfter from upto = (from + 1) :: pagesAfter (from + 1) upto.
Proof.
  intros. unfold pagesAfter. rewrite seqZ_cons by lia.
  f_equal. f_equal; lia.
Qed.

Lemma pagesAfter_snoc (from upto : Z) :
  from < upto → pagesAfter from upto = pagesAfter from (upto - 1) ++ [upto].
Proof.
  intros. unfold pagesAfter.
  replace (upto - from) with ((upto - 1 - from) + 1) at 1 by lia.
  rewrite seqZ_app by lia. f_equal.
  replace (from + 1 + (upto - 1 - from)) with upto by lia. done.
Qed.

Lemma elem_of_pagesAfter (from upto i : Z) :
  i ∈ pagesAfter from upto ↔ from < i ≤ upto.
Proof. unfold pagesAfter. rewrite elem_of_seqZ. lia. Qed.

Lemma pageData_loaded net p d : fetched net p = inr d → pageData net p = data d.
Proof. unfold pageData. by intros ->. Qed.

(** *** The [while] loop *)

(** The loop always comes back, whatever the network does, and never
    unmarks an id. *)
Lemma selectionLoop_returns net numToSelect totalPages m pageToFetch w :
  ∃ w' m',
    selectionLoop net numToSelect totalPages m pageToFetch w = (w', Returned m') ∧
    ∀ i : Z, currentSelections m !! i = Some true →
             currentSelections m' !! i = Some true.
Proof.
  remember (Z.to_nat (totalPages - pageToFetch)) as k eqn:Hk.
  revert m pageToFetch w Hk.
  induction k as [|k IH]; intros m pageToFetch w Hk; rewrite selectionLoop_turn.
  - rewrite (proj2 (Z.ltb_ge pageToFetch totalPages)) by lia.
    rewrite andb_false_r. eauto.
  - destruct (_ && _); [|eauto].
    destruct (fetched net (pageToFetch + 1)) as [e|d]; [eauto|].
    destruct (IH (selectArtworks numToSelect (data d) m) (pageToFetch + 1)
                 (requested w (pageToFetch + 1)) ltac:(lia))
      as (w' & m' & -> & Hkeep).
    exists w', m'. split; [done|].
    intros i Hi. by apply Hkeep, selectArtworks_keeps.
Qed.

(** When every later page loads, the loop marks as the inner loop would on
    the later pages laid end to end, and logs nothing. *)
Lemma selectionLoop_all_load net numToSelect totalPages m pageToFetch w :
  (∀ p, pageToFetch < p ≤ totalPages → ∃ d, fetched net p = inr d) →
  ∃ w',
    selectionLoop net numToSelect totalPages m pageToFetch w
    = (w', Returned (selectArtworks numToSelect
                       (pagesAfter pageToFetch totalPages ≫= pageData net) m)) ∧
    console w' = console w.
Proof.
  remember (Z.to_nat (totalPages - pageToFetch)) as k eqn:Hk.
  revert m pageToFetch w Hk.
  induction k as [|k IH]; intros m pageToFetch w Hk Hload; rewrite selectionLoop_turn.
  - rewrite (proj2 (Z.ltb_ge pageToFetch totalPages)) by lia.
    rewrite andb_false_r, pagesAfter_nil by lia. eauto.
  - rewrite (proj2 (Z.ltb_lt pageToFetch totalPages)) by lia.
    rewrite andb_true_r.
    destruct (selectedCount m <? numToSelect) eqn:Hlt.
    + rewrite pagesAfter_cons, bind_cons, selectArtworks_app by lia.
      destruct (Hload (pageToFetch + 1) ltac:(lia)) as [d Hd].
      rewrite (pageData_loaded _ _ _ Hd), Hd.
      destruct (IH (selectArtworks numToSelect (data d) m) (pageToFetch + 1)
                   (requested w (pageToFetch + 1)) ltac:(lia))
        as (w' & -> & Hconsole); [intros p Hp; apply Hload; lia|].
      eauto.
    + apply Z.ltb_ge in Hlt. rewrite selectArtworks_full by done. eauto.
Qed.

(** When the pages before [failing] load and [failing] does not, and the
    records up to there do not fill the quota, the loop requests the pages up
    to [failing] and no other, logs the failure twice (in [fetchArtworks] and
    in its own handler) and comes back with what it had marked. *)
Lemma selectionLoop_failure net numToSelect totalPages m pageToFetch w failing e :
  pageToFetch < failing ≤ totalPages →
  (∀ p, pageToFetch < p < failing → ∃ d, fetched net p = inr d) →
  fetched net failing = inl e →
  selectedCount (selectArtworks numToSelect
                   (pagesAfter pageToFetch (failing - 1) ≫= pageData net) m)
    < numToSelect →
  selectionLoop net numToSelect totalPages m pageToFetch w
  = (mkWorld (requests w ++ pagesAfter pageToFetch failing)
       (console w ++
          [mkLog "Error fetching artworks:" e;
           mkLog ("Error fetching page " +:+ number_to_string failing
                  +:+ " for selection:") e]),
     Returned (selectArtworks numToSelect
                 (pagesAfter pageToFetch (failing - 1) ≫= pageData net) m)).
Proof.
  remember (Z.to_nat (failing - 1 - pageToFetch)) as k eqn:Hk.
  revert m pageToFetch w Hk.
  induction k as [|k IH]; intros m pageToFetch w Hk Hrange Hload Hfail Hroom;
    rewrite selectionLoop_turn.
  - assert (failing = pageToFetch + 1) as -> by lia.
    rewrite (pagesAfter_nil pageToFetch (pageToFetch + 1 - 1)) in * by lia.
    cbn in Hroom. cbn [mbind list_bind selectArtworks].
    rewrite (proj2 (Z.ltb_lt _ _) Hroom).
    rewrite (proj2 (Z.ltb_lt pageToFetch totalPages)) by lia.
    cbn [andb]. rewrite Hfail.
    rewrite (pagesAfter_cons pageToFetch), pagesAfter_nil by lia. done.
  - destruct (Hload (pageToFetch + 1) ltac:(lia)) as [d Hd].
    revert Hroom.
    rewrite (pagesAfter_cons pageToFetch (failing - 1)), bind_cons,
      selectArtworks_app by lia.
    rewrite !(pageData_loaded _ _ _ Hd). intros Hroom.
    pose proof (selectArtworks_count_le numToSelect
                  (pagesAfter (pageToFetch + 1) (failing - 1) ≫= pageData net)
                  (selectArtworks numToSelect (data d) m)) as Hle1.
    pose proof (selectArtworks_count_le numToSelect (data d) m) as Hle2.
    rewrite (proj2 (Z.ltb_lt (selectedCount m) numToSelect)) by lia.
    rewrite (proj2 (Z.ltb_lt pageToFetch totalPages)) by lia.
    cbn [andb]. rewrite Hd.
    rewrite (IH _ (pageToFetch + 1) (requested w (pageToFetch + 1))); try done; try lia.
    + cbn [requested requests console].
      rewrite (pagesAfter_cons pageToFetch failing) by lia.
      by rewrite <- app_assoc.
    + intros p Hp. apply Hload. lia.
Qed.

(** ** Counting the selected ids *)

Lemma selected_count_insert_fresh (m : gmap Z bool) (i : Z) (b : bool) :
  m !! i = None →
  length (filter (λ isSelected : bool, isSelected = true) (snd <$> map_to_list (<[i := b]> m)))
  = (Nat.b2n b + length (filter (λ isSelected : bool, isSelected = true)
                           (snd <$> map_to_list m)))%nat.
Proof.
  intros Hi. rewrite (map_to_list_insert m i b Hi). cbn [fmap list_fmap snd].
  rewrite filter_cons. destruct b; case_decide; done.
Qed.

Lemma getTotalSelectedArtworkCount_mark (s : AppState) (sel : gmap Z bool) (i : Z) :
  sel !! i ≠ Some true →
  getTotalSelectedArtworkCount (withSelection (<[i := true]> sel) s)
  = S (getTotalSelectedArtworkCount (withSelection sel s)).
Proof.
  intros Hi. unfold getTotalSelectedArtworkCount.
  cbn [withSelection setSelectedArtworkIds selectedArtworkIds].
  destruct (sel !! i) as [[|]|] eqn:Hlook; [done| |].
  - rewrite <- (insert_delete_eq sel i true).
    rewrite <- (insert_delete_id sel i false Hlook) at 2.
    rewrite !selected_count_insert_fresh by apply lookup_delete_eq. done.
  - by rewrite selected_count_insert_fresh.
Qed.

Lemma getTotalSelectedArtworkCount_mark_all (s : AppState) (ids : list Z) (sel : gmap Z bool) :
  NoDup ids →
  (∀ i, i ∈ ids → sel !! i ≠ Some true) →
  getTotalSelectedArtworkCount
    (withSelection (foldl (λ sel i, <[i := true]> sel) sel ids) s)
  = (length ids + getTotalSelectedArtworkCount (withSelection sel s))%nat.
Proof.
  revert sel. induction ids as [|i ids IH]; intros sel Hnodup Hoff; [done|].
  apply NoDup_cons in Hnodup as [Hi Hnodup]. cbn [foldl].
  rewrite IH; [|done|].
  - rewrite getTotalSelectedArtworkCount_mark; [cbn; lia|].
    apply Hoff. by left.
  - intros j Hj. rewrite lookup_insert_ne by (by intros ->).
    apply Hoff. by right.
Qed.

Lemma getTotalSelectedArtworkCount_none (s : AppState) :
  (∀ i, isArtworkSelected s i = false) → getTotalSelectedArtworkCount s = 0%nat.
Proof.
  intros Hnone. unfold getTotalSelectedArtworkCount.
  destruct (filter _ _) as [|b l] eqn:Hfilter; [done|].
  assert (Hb : b ∈ filter (λ isSelected : bool, isSelected = true)
                 (snd <$> map_to_list (selectedArtworkIds s)))
    by (rewrite Hfilter; by left).
  apply list_elem_of_filter in Hb as [-> Hb].
  apply list_elem_of_fmap in Hb as ([i b] & Hsnd & Hin). cbn in Hsnd. subst b.
  apply elem_of_map_to_list in Hin.
  specialize (Hnone i). by apply isArtworkSelected_false in Hnone.
Qed.

(** What the whole operation stores when it marks exactly the records of a
    list, from the start of its first loop. *)
Lemma selectArtworks_from_start numToSelect artworks (sel : gmap Z bool) :
  selectArtworks numToSelect artworks (mkMarked sel 0)
  = mkMarked (foldl (λ sel i, <[i := true]> sel) sel
                (id <$> take (Z.to_nat numToSelect) artworks))
             (Z.of_nat (length (take (Z.to_nat numToSelect) artworks))).
Proof.
  rewrite selectArtworks_take. cbn [selectedCount currentSelections].
  by rewrite Z.sub_0_r, Z.add_0_l.
Qed.

(** ** Multi-page selection *)

(** C1: with no id selected beforehand, a positive [numToSelect] and every
    page after the current one loading, [performMultiPageSelection] returns
    normally and logs no error, and the ids selected afterwards are exactly
    those of the first [numToSelect] records in forward page and display
    order from the current page.  Records having distinct ids (the data
    model's unique [id]), the selected ids are [numToSelect] many when that
    many records are available going forward, and as many as are available
    otherwise. *)
Theorem selectFirstN_forward (s : AppState) (q : QueryResult) (net : Network)
    (numToSelect : Z) (w : World) :
  0 < numToSelect →
  (∀ i, isArtworkSelected s i = false) →
  (∀ p, currentPage s < p ≤ totalPages s → ∃ d, fetched net p = inr d) →
  ∃ w' sel',
    performMultiPageSelection s q net numToSelect w = (w', Returned sel') ∧
    console w' = console w ∧
    (∀ i, isArtworkSelected (withSelection sel' s) i = true
          ↔ i ∈ id <$> take (Z.to_nat numToSelect) (forwardArtworks s q net)) ∧
    (NoDup (id <$> forwardArtworks s q net) →
       (numToSelect ≤ Z.of_nat (length (forwardArtworks s q net)) →
          Z.of_nat (getTotalSelectedArtworkCount (withSelection sel' s)) = numToSelect) ∧
       (Z.of_nat (length (forwardArtworks s q net)) < numToSelect →
          getTotalSelectedArtworkCount (withSelection sel' s)
          = length (forwardArtworks s q net))).
Proof.
  intros Hpos Hnone Hload.
  unfold performMultiPageSelection, bind, ret.
  destruct (selectionLoop_all_load net numToSelect (totalPages s)
              (selectArtworks numToSelect (currentPageArtworks q)
                 (mkMarked (selectedArtworkIds s) 0))
              (currentPage s) w Hload) as (w' & -> & Hconsole).
  rewrite <- selectArtworks_app. fold (artworksUpTo s q net (totalPages s)).
  fold (forwardArtworks s q net).
  rewrite selectArtworks_from_start. cbn [currentSelections].
  set (taken := take (Z.to_nat numToSelect) (forwardArtworks s q net)).
  eexists _, _. split; [reflexivity|]. split; [done|]. split.
  - intros i. rewrite isArtworkSelected_true. cbn. rewrite lookup_foldl_insert.
    case_decide as Hin; [done|]. split; [|done].
    intros Hsel. specialize (Hnone i). by apply isArtworkSelected_false in Hnone.
  - intros Hnodup.
    assert (Hcount :
      getTotalSelectedArtworkCount
        (withSelection (foldl (λ sel i, <[i := true]> sel) (selectedArtworkIds s)
                          (id <$> taken)) s) = length taken).
    { rewrite getTotalSelectedArtworkCount_mark_all.
      - replace (withSelection (selectedArtworkIds s) s) with s by (by destruct s).
        rewrite getTotalSelectedArtworkCount_none by done.
        rewrite length_fmap. lia.
      - unfold taken. rewrite fmap_take.
        eapply sublist_NoDup; [done | apply sublist_take].
      - intros i _. by apply isArtworkSelected_false. }
    rewrite Hcount. unfold taken. rewrite length_take. lia.
Qed.

(** C3: when the pages between the current one and [failing] load, the
    fetch of [failing] fails with [e], and the records before it do not fill
    the quota, [performMultiPageSelection] returns normally (nothing is
    thrown to its caller); it has requested the pages up to [failing] and
    none after it; the failure is on the console, once from [fetchArtworks]
    and once from the loop's own handler; every record of the current page
    and of the pages before [failing] is selected, and every other id is as
    it was. *)
Theorem selectFirstN_fetch_failure (s : AppState) (q : QueryResult) (net : Network)
    (numToSelect : Z) (w : World) (failing : Z) (e : Thrown) :
  currentPage s < failing ≤ totalPages s →
  (∀ p, currentPage s < p < failing → ∃ d, fetched net p = inr d) →
  fetched net failing = inl e →
  Z.of_nat (length (artworksUpTo s q net (failing - 1))) < numToSelect →
  ∃ w' sel',
    performMultiPageSelection s q net numToSelect w = (w', Returned sel') ∧
    requests w' = requests w ++ pagesAfter (currentPage s) failing ∧
    console w'
    = console w ++
        [mkLog "Error fetching artworks:" e;
         mkLog ("Error fetching page " +:+ number_to_string failing
                +:+ " for selection:") e] ∧
    (∀ a, a ∈ artworksUpTo s q net (failing - 1) →
          isArtworkSelected (withSelection sel' s) (id a) = true) ∧
    (∀ i, i ∉ id <$> artworksUpTo s q net (failing - 1) →
          sel' !! i = selectedArtworkIds s !! i).
Proof.
  intros Hrange Hload Hfail Hroom.
  assert (Hmarked :
    selectArtworks numToSelect
      (pagesAfter (currentPage s) (failing - 1) ≫= pageData net)
      (selectArtworks numToSelect (currentPageArtworks q)
         (mkMarked (selectedArtworkIds s) 0))
    = mkMarked (foldl (λ sel i, <[i := true]> sel) (selectedArtworkIds s)
                  (id <$> artworksUpTo s q net (failing - 1)))
               (Z.of_nat (length (artworksUpTo s q net (failing - 1))))).
  { rewrite <- selectArtworks_app. fold (artworksUpTo s q net (failing - 1)).
    rewrite selectArtworks_from_start, take_ge by lia. done. }
  unfold performMultiPageSelection, bind, ret.
  rewrite (selectionLoop_failure net numToSelect (totalPages s) _ (currentPage s)
             w failing e Hrange Hload Hfail); rewrite Hmarked; [|done].
  cbn [currentSelections]. eexists _, _. split; [reflexivity|].
  split; [done|]. split; [done|]. split.
  - intros a Ha. apply isArtworkSelected_true. cbn. rewrite lookup_foldl_insert.
    rewrite decide_True; [done|]. by apply list_elem_of_fmap_2.
  - intros i Hi. rewrite lookup_foldl_insert. by rewrite decide_False.
Qed.

(** C9: whatever the starting mapping, the count asked for and the network
    (all pages loading, pages running out, or a fetch failing partway),
    [performMultiPageSelection] returns, and every id that was selected
    before is selected in the mapping it stores. *)
Theorem selectFirstN_monotone (s : AppState) (q : QueryResult) (net : Network)
    (numToSelect : Z) (w : World) :
  ∃ w' sel',
    performMultiPageSelection s q net numToSelect w = (w', Returned sel') ∧
    ∀ i, isArtworkSelected s i = true →
         isArtworkSelected (withSelection sel' s) i = true.
Proof.
  unfold performMultiPageSelection, bind, ret.
  destruct (selectionLoop_returns net numToSelect (totalPages s)
              (selectArtworks numToSelect (currentPageArtworks q)
                 (mkMarked (selectedArtworkIds s) 0))
              (currentPage s) w) as (w' & m' & -> & Hkeep).
  eexists _, _. split; [reflexivity|].
  intros i Hi%isArtworkSelected_true. apply isArtworkSelected_true. cbn.
  by apply Hkeep, selectArtworks_keeps.
Qed.

(** ** The pager window *)

(** C4: the windows for ten pages at page 1 and at page 5, and for a single
    page; [-1] is the ellipsis marker. *)
Theorem visible_pages_examples (sel : gmap Z bool) (r : string) (b1 b2 : bool) :
  getVisiblePageNumbers (mkState 1 sel 10 r b1 b2) = [1; 2; 3; -1; 10] ∧
  getVisiblePageNumbers (mkState 5 sel 10 r b1 b2) = [1; -1; 3; 4; 5; 6; 7; -1; 10] ∧
  getVisiblePageNumbers (mkState 1 sel 1 r b1 b2) = [1].
Proof. repeat split. Qed.

(** C2, as stated, fails: with no page count yet ([totalPages = 0], the
    initial state) the window is [[1]], not empty; and far from the first
    page the ellipsis is still pushed. *)
Lemma visible_pages_no_total :
  totalPages initialState = 0 ∧
  getVisiblePageNumbers initialState = [1] ∧
  getVisiblePageNumbers initialState ≠ [] ∧
  getVisiblePageNumbers (setCurrentPage 5 (setTotalPages 1 initialState)) = [1; -1].
Proof. repeat split. discriminate. Qed.

(** C2 (amended): for at most one page, zero included, and a current page
    of at least 1, the window is [[1]] when the current page is at most 4
    and [[1; -1]] beyond; it is never empty. *)
Theorem visible_pages_single (s : AppState) :
  totalPages s ≤ 1 →
  1 ≤ currentPage s →
  getVisiblePageNumbers s = if currentPage s <=? 4 then [1] else [1; -1].
Proof.
  intros Htotal Hcur. unfold getVisiblePageNumbers, pushRange. cbn zeta.
  rewrite seqZ_nil by lia. rewrite !Z.gtb_ltb.
  rewrite (proj2 (Z.ltb_ge (currentPage s + 2) (totalPages s - 1))) by lia.
  rewrite (proj2 (Z.ltb_ge 1 (totalPages s))) by lia.
  destruct (currentPage s <=? 4) eqn:Hnear.
  - apply Z.leb_le in Hnear. by rewrite (proj2 (Z.ltb_ge 2 (currentPage s - 2))) by lia.
  - apply Z.leb_gt in Hnear. by rewrite (proj2 (Z.ltb_lt 2 (currentPage s - 2))) by lia.
Qed.

(** ** Clicks on the checkboxes *)

(** C7: two clicks in succession on the checkbox of one id bring
    [isArtworkSelected] of that id back to what it was. *)
Theorem toggle_twice (s : AppState) (artworkId : Z) :
  isArtworkSelected (clickRowCheckbox (clickRowCheckbox s artworkId) artworkId) artworkId
  = isArtworkSelected s artworkId.
Proof.
  unfold clickRowCheckbox, toggleArtworkSelection.
  rewrite isArtworkSelected_setSelected. cbn [selectedArtworkIds setSelectedArtworkIds].
  rewrite lookup_insert_eq.
  rewrite isArtworkSelected_setSelected, lookup_insert_eq.
  destruct (isArtworkSelected s artworkId); reflexivity.
Qed.

(** Two calls of the handler of one and the same render, with no render in
    between, both write the flag that render computed; this is not the
    succession of C7, where each click is handled by the render on screen. *)
Lemma toggle_same_render (s : AppState) (artworkId : Z) :
  isArtworkSelected
    (setSelectedArtworkIds (toggleArtworkSelection s artworkId)
                           (clickRowCheckbox s artworkId))
    artworkId
  = negb (isArtworkSelected s artworkId).
Proof.
  unfold clickRowCheckbox, toggleArtworkSelection.
  rewrite isArtworkSelected_setSelected, lookup_insert_eq.
  destruct (isArtworkSelected s artworkId); reflexivity.
Qed.

(** C5: on a page with records, a click on the select-all checkbox makes
    [areAllCurrentPageArtworksSelected] true when it was false, and false,
    with every record of the page deselected, when it was true; on a page
    without records it is false before and after. *)
Theorem toggleAll_flips (s : AppState) (q : QueryResult) :
  (currentPageArtworks q ≠ [] →
     (areAllCurrentPageArtworksSelected s q = false →
        areAllCurrentPageArtworksSelected (clickSelectAll s q) q = true) ∧
     (areAllCurrentPageArtworksSelected s q = true →
        areAllCurrentPageArtworksSelected (clickSelectAll s q) q = false ∧
        ∀ a, a ∈ currentPageArtworks q →
             isArtworkSelected (clickSelectAll s q) (id a) = false)) ∧
  (currentPageArtworks q = [] →
     areAllCurrentPageArtworksSelected s q = false ∧
     areAllCurrentPageArtworksSelected (clickSelectAll s q) q = false).
Proof.
  assert (Hpage : ∀ a, a ∈ currentPageArtworks q →
            isArtworkSelected (clickSelectAll s q) (id a)
            = negb (areAllCurrentPageArtworksSelected s q)).
  { intros a Ha. unfold clickSelectAll, toggleAllCurrentPageArtworks.
    rewrite isArtworkSelected_setSelected, lookup_foldl_insert.
    rewrite decide_True by (by apply list_elem_of_fmap_2).
    by destruct (areAllCurrentPageArtworksSelected s q). }
  split.
  - intros Hne. split.
    + intros Hwas. apply areAll_spec. split; [done|].
      intros a Ha. by rewrite Hpage, Hwas.
    + intros Hwas.
      assert (Hoff : ∀ a, a ∈ currentPageArtworks q →
                isArtworkSelected (clickSelectAll s q) (id a) = false).
      { intros a Ha. by rewrite Hpage, Hwas. }
      split; [|done].
      apply not_true_is_false. intros [_ Hall]%areAll_spec.
      destruct (currentPageArtworks q) as [|a l] eqn:Hl; [done|].
      specialize (Hall a ltac:(by left)). specialize (Hoff a ltac:(by left)).
      congruence.
  - intros Hnil. split; apply not_true_is_false; by intros [? _]%areAll_spec.
Qed.

(** C10: a click on the checkbox of [artworkId] leaves [isArtworkSelected j]
    unchanged for every other id [j], and a click on the select-all checkbox
    leaves it unchanged for every [j] that is not the id of a record of the
    current page. *)
Theorem toggle_frame (s : AppState) (q : QueryResult) (artworkId j : Z) :
  (j ≠ artworkId →
     isArtworkSelected (clickRowCheckbox s artworkId) j = isArtworkSelected s j) ∧
  (j ∉ id <$> currentPageArtworks q →
     isArtworkSelected (clickSelectAll s q) j = isArtworkSelected s j).
Proof.
  split.
  - intros Hne. unfold clickRowCheckbox, toggleArtworkSelection.
    rewrite isArtworkSelected_setSelected. by rewrite lookup_insert_ne.
  - intros Hout. unfold clickSelectAll, toggleAllCurrentPageArtworks.
    rewrite isArtworkSelected_setSelected, lookup_foldl_insert.
    by rewrite decide_False.
Qed.

(** ** Navigation *)

(** C6, as stated, fails: before the page count is known ([totalPages = 0])
    [goToLastPage] sets the current page to 0. *)
Lemma goToLastPage_leaves_range :
  pagerInvariant initialState ∧ ¬ pagerInvariant (goToLastPage initialState).
Proof. split; [by split|]. intros [Hcur _]. by cbn in Hcur. Qed.

(** C6 (amended): [goToPage] and [goToFirstPage] keep the pager invariant
    from every state that has it; [goToLastPage] keeps it when there is at
    least one page. *)
Theorem navigation_keeps_pager (s : AppState) (pageNumber : Z) :
  pagerInvariant s →
  pagerInvariant (goToPage s pageNumber) ∧
  pagerInvariant (goToFirstPage s) ∧
  (1 ≤ totalPages s → pagerInvariant (goToLastPage s)).
Proof.
  intros [Hcur Htotal]. unfold pagerInvariant, goToPage, goToFirstPage, goToLastPage.
  repeat split; cbn; try lia.
  - destruct (_ && _) eqn:Hin; cbn; [|done].
    apply andb_prop in Hin as [Hge _]. apply Z.geb_le in Hge. lia.
  - by destruct (_ && _).
Qed.

(** The pager, and with it the button that calls [goToLastPage], is on
    screen only when there are at least two pages. *)
Lemma paginationBar_shown (s : AppState) (q : QueryResult) (g : GalleryView) :
  App s q = Gallery g → is_Some (paginationBar g) → 1 < totalPages s.
Proof.
  unfold App. destruct (error q); [done|].
  destruct (_ && _); [done|]. destruct (_ || _); [done|].
  intros [= <-]. cbn. destruct (totalPages s >? 1) eqn:Hgt.
  - intros _. apply Z.gtb_lt in Hgt. lia.
  - rewrite andb_false_r. by intros [? ?].
Qed.

(** ** Failed page loads *)

(** C8: for a response whose status [st] is outside 200-299,
    [fetchArtworks] makes its one request, logs the error and throws an
    [Error] with the message "HTTP error! status: st"; for status 500, a
    render whose query reports that error shows "Failed to load artworks:
    HTTP error! status: 500" and no rows. *)
Theorem fetchArtworks_http_error (net : Network) (pageNumber : Z) (w : World)
    (st : Z) (body : Thrown + ArtworkApiResponse) :
  net pageNumber = Resolved (mkHttp st body) →
  ¬ (200 ≤ st ≤ 299) →
  let e := ErrorObj ("HTTP error! status: " +:+ number_to_string st) in
  fetchArtworks net pageNumber w
  = (mkWorld (requests w ++ [pageNumber])
             (console w ++ [mkLog "Error fetching artworks:" e]),
     Threw e) ∧
  (st = 500 →
     ∀ s q, error q = Some e →
       App s q = ErrorMessage "Failed to load artworks: HTTP error! status: 500" ∧
       renderedRows (App s q) = []).
Proof.
  intros Hnet Hstatus e. split.
  - rewrite fetchArtworks_settles. unfold fetched. rewrite Hnet.
    unfold ok. cbn [status]. by rewrite bool_decide_eq_false_2.
  - intros -> s q Herr. unfold App. rewrite Herr. by vm_compute.
Qed.

(** ** The theorems at sample inputs *)
Lemma sampleNet_loads (p : Z) :
  currentPage sampleState < p ≤ totalPages sampleState →
  ∃ d, fetched sampleNet p = inr d.
Proof.
  cbn. intros Hp. assert (p = 2 ∨ p = 3) as [-> | ->] by lia; eexists; reflexivity.
Defined.

Lemma selectFirstN_forward_witness :
  ∃ w' sel',
    performMultiPageSelection sampleState sampleQuery sampleNet 4 emptyWorld
    = (w', Returned sel') ∧
    console w' = console emptyWorld ∧
    (∀ i, isArtworkSelected (withSelection sel' sampleState) i = true
          ↔ i ∈ id <$> take (Z.to_nat 4) (forwardArtworks sampleState sampleQuery sampleNet)) ∧
    (NoDup (id <$> forwardArtworks sampleState sampleQuery sampleNet) →
       (4 ≤ Z.of_nat (length (forwardArtworks sampleState sampleQuery sampleNet)) →
          Z.of_nat (getTotalSelectedArtworkCount (withSelection sel' sampleState)) = 4) ∧
       (Z.of_nat (length (forwardArtworks sampleState sampleQuery sampleNet)) < 4 →
          getTotalSelectedArtworkCount (withSelection sel' sampleState)
          = length (forwardArtworks sampleState sampleQuery sampleNet))).
Proof.
  apply selectFirstN_forward.
  - lia.
  - intros i. reflexivity.
  - apply sampleNet_loads.
Defined.

(** The records of the sample collection have distinct ids. *)
Example sample_ids_distinct :
  NoDup (id <$> forwardArtworks sampleState sampleQuery sampleNet).
Proof. apply (bool_decide_unpack _). vm_compute. exact I. Qed.

Example selectFirstN_forward_run :
  performMultiPageSelection sampleState sampleQuery sampleNet 4 emptyWorld
  = (mkWorld [2; 3] [],
     Returned (<[31 := true]> (<[21 := true]> (<[12 := true]> (<[11 := true]> ∅))))).
Proof. vm_compute. reflexivity. Qed.

(** Why the count needs distinct ids: a page that lists one record twice
    fills a quota of two with a single id. *)
Example selectFirstN_repeated_id :
  ∃ w' sel',
    performMultiPageSelection sampleState
      (mkQuery (Some (page [7; 7] 3)) false None) sampleNet 2 emptyWorld
    = (w', Returned sel') ∧
    getTotalSelectedArtworkCount (withSelection sel' sampleState) = 1%nat.
Proof. eexists _, _. vm_compute. done. Qed.

Lemma scenarioNet_loads (p : Z) :
  currentPage scenarioState < p < 3 → ∃ d, fetched scenarioNet p = inr d.
Proof.
  cbn. intros Hp. assert (p = 2) as -> by lia. eexists; reflexivity.
Defined.

Lemma selectFirstN_fetch_failure_witness :
  ∃ w' sel',
    performMultiPageSelection scenarioState scenarioQuery scenarioNet 15 emptyWorld
    = (w', Returned sel') ∧
    requests w' = requests emptyWorld ++ pagesAfter (currentPage scenarioState) 3 ∧
    console w'
    = console emptyWorld ++
        [mkLog "Error fetching artworks:" (ErrorObj "HTTP error! status: 500");
         mkLog ("Error fetching page " +:+ number_to_string 3 +:+ " for selection:")
               (ErrorObj "HTTP error! status: 500")] ∧
    (∀ a, a ∈ artworksUpTo scenarioState scenarioQuery scenarioNet (3 - 1) →
          isArtworkSelected (withSelection sel' scenarioState) (id a) = true) ∧
    (∀ i, i ∉ id <$> artworksUpTo scenarioState scenarioQuery scenarioNet (3 - 1) →
          sel' !! i = selectedArtworkIds scenarioState !! i).
Proof.
  apply selectFirstN_fetch_failure.
  - cbn. lia.
  - apply scenarioNet_loads.
  - vm_compute. reflexivity.
  - vm_compute. reflexivity.
Defined.

(** The scenario of the specification: thirteen ids end up selected. *)
Example scenario_thirteen :
  ∃ w' sel',
    performMultiPageSelection scenarioState scenarioQuery scenarioNet 15 emptyWorld
    = (w', Returned sel') ∧
    requests w' = [2; 3] ∧
    getTotalSelectedArtworkCount (withSelection sel' scenarioState) = 13%nat.
Proof. eexists _, _. vm_compute. done. Qed.

Lemma visible_pages_single_witness :
  getVisiblePageNumbers initialState
  = if currentPage initialState <=? 4 then [1] else [1; -1].
Proof. apply visible_pages_single; cbn; lia. Defined.

Lemma navigation_keeps_pager_witness :
  pagerInvariant (goToPage (mkState 2 ∅ 5 "" false false) 4) ∧
  pagerInvariant (goToFirstPage (mkState 2 ∅ 5 "" false false)) ∧
  (1 ≤ totalPages (mkState 2 ∅ 5 "" false false) →
   pagerInvariant (goToLastPage (mkState 2 ∅ 5 "" false false))).
Proof. apply navigation_keeps_pager. unfold pagerInvariant. cbn. lia. Defined.

Lemma fetchArtworks_http_error_witness :
  let e := ErrorObj ("HTTP error! status: " +:+ number_to_string 500) in
  fetchArtworks scenarioNet 3 emptyWorld
  = (mkWorld (requests emptyWorld ++ [3])
             (console emptyWorld ++ [mkLog "Error fetching artworks:" e]),
     Threw e) ∧
  (500 = 500 →
     ∀ s q, error q = Some e →
       App s q = ErrorMessage "Failed to load artworks: HTTP error! status: 500" ∧
       renderedRows (App s q) = []).
Proof.
  apply (fetchArtworks_http_error scenarioNet 3 emptyWorld 500 (inl NonError)).
  - reflexivity.
  - lia.
Defined.

Lemma toggleAll_flips_witness :
  areAllCurrentPageArtworksSelected sampleState sampleQuery = false ∧
  areAllCurrentPageArtworksSelected (clickSelectAll sampleState sampleQuery) sampleQuery
  = true.
Proof.
  split; [reflexivity|].
  apply (toggleAll_flips sampleState sampleQuery); [discriminate | reflexivity].
Defined.

Lemma toggle_frame_witness :
  isArtworkSelected (clickRowCheckbox sampleState 11) 12
  = isArtworkSelected sampleState 12.
Proof. apply (toggle_frame sampleState sampleQuery 11 12). lia. Defined.

(** * Further properties *)

(** ** The multi-page loop on any network *)

Lemma pageData_failed net p e : fetched net p = inl e → pageData net p = [].
Proof. unfold pageData. by intros ->. Qed.

(** Whatever the network does, the loop requests consecutive pages from the
    one after [pageToFetch], marks as the inner loop would on their records
    laid end to end, and stops asking once the quota is reached: the last
    page it requested was still needed. *)
Lemma selectionLoop_any_network net numToSelect totalPages m pageToFetch w :
  ∃ upto w',
    pageToFetch ≤ upto ≤ Z.max pageToFetch totalPages ∧
    selectionLoop net numToSelect totalPages m pageToFetch w
    = (w', Returned (selectArtworks numToSelect
                       (pagesAfter pageToFetch upto ≫= pageData net) m)) ∧
    requests w' = requests w ++ pagesAfter pageToFetch upto ∧
    (upto = pageToFetch ∨
     selectedCount (selectArtworks numToSelect
                      (pagesAfter pageToFetch (upto - 1) ≫= pageData net) m)
       < numToSelect).
Proof.
  remember (Z.to_nat (totalPages - pageToFetch)) as k eqn:Hk.
  revert m pageToFetch w Hk.
  induction k as [|k IH]; intros m pageToFetch w Hk; rewrite selectionLoop_turn.
  - rewrite (proj2 (Z.ltb_ge pageToFetch totalPages)) by lia.
    rewrite andb_false_r. exists pageToFetch, w.
    rewrite pagesAfter_nil by lia. rewrite app_nil_r. repeat split; auto; lia.
  - destruct (selectedCount m <? numToSelect) eqn:Hroom; cycle 1.
    { exists pageToFetch, w. rewrite pagesAfter_nil by lia. rewrite app_nil_r.
      repeat split; auto; lia. }
    apply Z.ltb_lt in Hroom.
    rewrite (proj2 (Z.ltb_lt pageToFetch totalPages)) by lia. cbn [andb].
    destruct (fetched net (pageToFetch + 1)) as [e|d] eqn:Hfetch.
    + exists (pageToFetch + 1). eexists. split; [lia|].
      rewrite (pagesAfter_cons pageToFetch (pageToFetch + 1)) by lia.
      rewrite (pagesAfter_nil (pageToFetch + 1) (pageToFetch + 1)) by lia.
      rewrite bind_cons, (pageData_failed _ _ _ Hfetch).
      split; [reflexivity|]. split; [reflexivity|]. right.
      rewrite pagesAfter_nil by lia. done.
    + destruct (IH (selectArtworks numToSelect (data d) m) (pageToFetch + 1)
                   (requested w (pageToFetch + 1)) ltac:(lia))
        as (upto & w' & Hupto & -> & Hreq & Hneeded).
      exists upto, w'. split; [lia|].
      rewrite (pagesAfter_cons pageToFetch upto) by lia.
      rewrite bind_cons, selectArtworks_app, (pageData_loaded _ _ _ Hfetch).
      split; [done|]. split.
      { rewrite Hreq. cbn. by rewrite <- app_assoc. }
      right. destruct (decide (upto = pageToFetch + 1)) as [->|Hfar].
      * rewrite pagesAfter_nil by lia. done.
      * destruct Hneeded as [?|Hneeded]; [done|].
        rewrite (pagesAfter_cons pageToFetch (upto - 1)) by lia.
        by rewrite bind_cons, selectArtworks_app, (pageData_loaded _ _ _ Hfetch).
Qed.

Lemma artworksUpTo_current (s : AppState) (q : QueryResult) (net : Network) upto :
  upto ≤ currentPage s → artworksUpTo s q net upto = currentPageArtworks q.
Proof.
  intros. unfold artworksUpTo. rewrite pagesAfter_nil by done. apply app_nil_r.
Qed.

(** What [performMultiPageSelection] computes, on any network. *)
Lemma performMultiPageSelection_shape (s : AppState) (q : QueryResult)
    (net : Network) (numToSelect : Z) (w : World) :
  ∃ upto w',
    currentPage s ≤ upto ≤ Z.max (currentPage s) (totalPages s) ∧
    requests w' = requests w ++ pagesAfter (currentPage s) upto ∧
    performMultiPageSelection s q net numToSelect w
    = (w', Returned (foldl (λ sel i, <[i := true]> sel) (selectedArtworkIds s)
                       (id <$> take (Z.to_nat numToSelect)
                                    (artworksUpTo s q net upto)))).
Proof.
  unfold performMultiPageSelection, bind, ret.
  destruct (selectionLoop_any_network net numToSelect (totalPages s)
              (selectArtworks numToSelect (currentPageArtworks q)
                 (mkMarked (selectedArtworkIds s) 0))
              (currentPage s) w) as (upto & w' & Hupto & -> & Hreq & _).
  exists upto, w'. split; [done|]. split; [done|].
  rewrite <- selectArtworks_app. fold (artworksUpTo s q net upto).
  by rewrite selectArtworks_from_start.
Qed.

(** X1: for every state, count and network, [performMultiPageSelection]
    returns; the pages it requested are the consecutive pages after the
    current one up to some page [upto] no later than the last; it stores
    the rendered mapping with the first [numToSelect] records of the current
    page and those pages marked; and it made no needless request: before
    each page it asked for, the records at hand were fewer than
    [numToSelect]. *)
Theorem performMultiPageSelection_any_network (s : AppState) (q : QueryResult)
    (net : Network) (numToSelect : Z) (w : World) :
  ∃ upto w',
    currentPage s ≤ upto ≤ Z.max (currentPage s) (totalPages s) ∧
    requests w' = requests w ++ pagesAfter (currentPage s) upto ∧
    performMultiPageSelection s q net numToSelect w
    = (w', Returned (foldl (λ sel i, <[i := true]> sel) (selectedArtworkIds s)
                       (id <$> take (Z.to_nat numToSelect)
                                    (artworksUpTo s q net upto)))) ∧
    ∀ p, p ∈ pagesAfter (currentPage s) upto →
         Z.of_nat (length (artworksUpTo s q net (p - 1))) < numToSelect.
Proof.
  unfold performMultiPageSelection, bind, ret.
  destruct (selectionLoop_any_network net numToSelect (totalPages s)
              (selectArtworks numToSelect (currentPageArtworks q)
                 (mkMarked (selectedArtworkIds s) 0))
              (currentPage s) w) as (upto & w' & Hupto & -> & Hreq & Hneeded).
  exists upto, w'. split; [done|]. split; [done|]. split.
  { rewrite <- selectArtworks_app. fold (artworksUpTo s q net upto).
    by rewrite selectArtworks_from_start. }
  intros p [Hlo Hhi]%elem_of_pagesAfter.
  destruct Hneeded as [->|Hneeded]; [lia|].
  revert Hneeded. rewrite <- selectArtworks_app.
  fold (artworksUpTo s q net (upto - 1)).
  rewrite selectArtworks_from_start. cbn [selectedCount].
  rewrite length_take. intros Hneeded.
  assert (Hmono : (length (artworksUpTo s q net (p - 1))
                   ≤ length (artworksUpTo s q net (upto - 1)))%nat).
  { unfold artworksUpTo. rewrite !length_app.
    destruct (decide (p = upto)) as [->|Hne]; [done|].
    unfold pagesAfter.
    replace (upto - 1 - currentPage s)
      with ((p - 1 - currentPage s) + (upto - p)) by lia.
    rewrite seqZ_app, bind_app, length_app by lia. lia. }
  lia.
Qed.

(** X2: when the current page holds the quota, nothing is requested or
    logged and the first [numToSelect] records of the page are marked; a
    count of zero or less marks nothing. *)
Theorem performMultiPageSelection_current_page_enough (s : AppState)
    (q : QueryResult) (net : Network) (numToSelect : Z) (w : World) :
  numToSelect ≤ Z.of_nat (length (currentPageArtworks q)) →
  performMultiPageSelection s q net numToSelect w
  = (w, Returned (foldl (λ sel i, <[i := true]> sel) (selectedArtworkIds s)
                    (id <$> take (Z.to_nat numToSelect) (currentPageArtworks q)))).
Proof.
  intros Henough. unfold performMultiPageSelection, bind, ret.
  rewrite selectionLoop_turn, selectArtworks_from_start. cbn [selectedCount].
  rewrite length_take.
  rewrite (proj2 (Z.ltb_ge _ _)) by lia. done.
Qed.

Lemma artworksUpTo_forward (s : AppState) (q : QueryResult) (net : Network) upto :
  upto ≤ Z.max (currentPage s) (totalPages s) →
  artworksUpTo s q net upto ⊆ forwardArtworks s q net.
Proof.
  intros Hupto a. unfold forwardArtworks, artworksUpTo.
  rewrite !elem_of_app, !list_elem_of_bind.
  intros [?|(p & Ha & Hp)]; [by left|]. right. exists p. split; [done|].
  apply elem_of_pagesAfter. apply elem_of_pagesAfter in Hp. lia.
Qed.

(** X3: on any network, [performMultiPageSelection] changes the entry of no
    id other than those of records on the current page or on a later page
    that loads; what was selected on earlier pages is out of its reach. *)
Theorem performMultiPageSelection_frame (s : AppState) (q : QueryResult)
    (net : Network) (numToSelect : Z) (w : World) (i : Z) :
  i ∉ id <$> forwardArtworks s q net →
  ∃ w' sel',
    performMultiPageSelection s q net numToSelect w = (w', Returned sel') ∧
    sel' !! i = selectedArtworkIds s !! i.
Proof.
  intros Hout.
  destruct (performMultiPageSelection_shape s q net numToSelect w)
    as (upto & w' & Hupto & _ & ->).
  eexists _, _. split; [reflexivity|].
  rewrite lookup_foldl_insert, decide_False; [done|].
  intros (a & -> & Ha)%list_elem_of_fmap. apply Hout.
  apply list_elem_of_fmap_2.
  apply (artworksUpTo_forward s q net upto); [lia|].
  by apply (subseteq_take (Z.to_nat numToSelect)).
Qed.

(** ** More on counting *)

Lemma getTotalSelectedArtworkCount_mark_again (s : AppState) (sel : gmap Z bool) (i : Z) :
  sel !! i = Some true →
  getTotalSelectedArtworkCount (withSelection (<[i := true]> sel) s)
  = getTotalSelectedArtworkCount (withSelection sel s).
Proof. intros Hi. by rewrite insert_id. Qed.

Lemma getTotalSelectedArtworkCount_unmark (s : AppState) (sel : gmap Z bool) (i : Z) :
  sel !! i = Some true →
  S (getTotalSelectedArtworkCount (withSelection (<[i := false]> sel) s))
  = getTotalSelectedArtworkCount (withSelection sel s).
Proof.
  intros Hi. unfold getTotalSelectedArtworkCount.
  cbn [withSelection setSelectedArtworkIds selectedArtworkIds].
  rewrite <- (insert_delete_eq sel i false).
  rewrite <- (insert_delete_id sel i true Hi) at 2.
  rewrite !selected_count_insert_fresh by apply lookup_delete_eq. done.
Qed.

Lemma getTotalSelectedArtworkCount_mark_bounds (s : AppState) (ids : list Z)
    (sel : gmap Z bool) :
  (getTotalSelectedArtworkCount (withSelection sel s)
   ≤ getTotalSelectedArtworkCount
       (withSelection (foldl (λ sel i, <[i := true]> sel) sel ids) s)
   ≤ getTotalSelectedArtworkCount (withSelection sel s) + length ids)%nat.
Proof.
  revert sel. induction ids as [|i ids IH]; intros sel; cbn [foldl length]; [lia|].
  specialize (IH (<[i := true]> sel)).
  destruct (decide (sel !! i = Some true)) as [Hi|Hi].
  - rewrite getTotalSelectedArtworkCount_mark_again in IH by done. lia.
  - rewrite getTotalSelectedArtworkCount_mark in IH by done. lia.
Qed.

(** X4: on any network, [performMultiPageSelection] never lowers the number
    of selected ids and raises it by at most [numToSelect]. *)
Theorem performMultiPageSelection_count_bounds (s : AppState) (q : QueryResult)
    (net : Network) (numToSelect : Z) (w : World) :
  ∃ w' sel',
    performMultiPageSelection s q net numToSelect w = (w', Returned sel') ∧
    (getTotalSelectedArtworkCount s
     ≤ getTotalSelectedArtworkCount (withSelection sel' s)
     ≤ getTotalSelectedArtworkCount s + Z.to_nat numToSelect)%nat.
Proof.
  destruct (performMultiPageSelection_shape s q net numToSelect w)
    as (upto & w' & _ & _ & ->).
  eexists _, _. split; [reflexivity|].
  pose proof (getTotalSelectedArtworkCount_mark_bounds s
                (id <$> take (Z.to_nat numToSelect) (artworksUpTo s q net upto))
                (selectedArtworkIds s)) as Hbounds.
  replace (withSelection (selectedArtworkIds s) s) with s in Hbounds
    by (by destruct s).
  rewrite length_fmap, length_take in Hbounds. lia.
Qed.

(** ** Selection bookkeeping *)

Lemma getTotalSelectedArtworkCount_zero (s : AppState) :
  getTotalSelectedArtworkCount s = 0%nat ↔ ∀ i, isArtworkSelected s i = false.
Proof.
  split; [|apply getTotalSelectedArtworkCount_none].
  unfold getTotalSelectedArtworkCount. intros Hzero i.
  apply isArtworkSelected_false. intros Hi.
  apply length_zero_iff_nil in Hzero.
  apply (filter_nil_not_elem_of _ _ true) in Hzero; [|done].
  apply Hzero, list_elem_of_fmap. exists (i, true). split; [done|].
  by apply elem_of_map_to_list.
Qed.

Lemma length_filter_all {A} (P : A → Prop) `{!∀ x, Decision (P x)} (l : list A) :
  length (filter P l) = length l ↔ Forall P l.
Proof.
  induction l as [|x l IH]; [by split|].
  rewrite filter_cons, Forall_cons. pose proof (length_filter P l).
  case_decide; cbn [length]; [rewrite <- IH; split; [intros [=]|intros []]; auto|].
  split; [lia | by intros []].
Qed.

Lemma length_filter_none {A} (P : A → Prop) `{!∀ x, Decision (P x)} (l : list A) :
  length (filter P l) = 0%nat ↔ Forall (λ x, ¬ P x) l.
Proof.
  induction l as [|x l IH]; [by split|].
  rewrite filter_cons, Forall_cons.
  case_decide; cbn [length]; [split; [lia | by intros []]|].
  rewrite IH. split; [done | by intros []].
Qed.

(** X7: the count for the current page never exceeds the number of records
    on it, and on a page with records it reaches that number exactly when
    [areAllCurrentPageArtworksSelected] holds. *)
Theorem getCurrentPageSelectedCount_all (s : AppState) (q : QueryResult) :
  (getCurrentPageSelectedCount s q ≤ length (currentPageArtworks q))%nat ∧
  (currentPageArtworks q ≠ [] →
     (getCurrentPageSelectedCount s q = length (currentPageArtworks q)
      ↔ areAllCurrentPageArtworksSelected s q = true)).
Proof.
  unfold getCurrentPageSelectedCount. split.
  - case_bool_decide; [lia | apply length_filter].
  - intros Hne. rewrite areAll_spec. case_bool_decide as Hlen.
    { by apply length_zero_iff_nil in Hlen. }
    split.
    + intros Hall%length_filter_all. split; [done|].
      intros a Ha. by apply (proj1 (Forall_forall _ _) Hall).
    + intros [_ Hall]. apply length_filter_all, Forall_forall. exact Hall.
Qed.

(** What a click on the select-all checkbox writes for a record of the
    page. *)
Lemma clickSelectAll_on_page (s : AppState) (q : QueryResult) (a : Artwork) :
  a ∈ currentPageArtworks q →
  isArtworkSelected (clickSelectAll s q) (id a)
  = negb (areAllCurrentPageArtworksSelected s q).
Proof.
  intros Ha. unfold clickSelectAll, toggleAllCurrentPageArtworks.
  rewrite isArtworkSelected_setSelected, lookup_foldl_insert.
  rewrite decide_True by (by apply list_elem_of_fmap_2).
  by destruct (areAllCurrentPageArtworksSelected s q).
Qed.

(** X8: after a click on the select-all checkbox the count for the current
    page is the number of its records when they were not all selected, and
    zero when they were. *)
Theorem clickSelectAll_page_count (s : AppState) (q : QueryResult) :
  getCurrentPageSelectedCount (clickSelectAll s q) q
  = if areAllCurrentPageArtworksSelected s q then 0%nat
    else length (currentPageArtworks q).
Proof.
  unfold getCurrentPageSelectedCount at 1. case_bool_decide as Hlen.
  { rewrite Hlen. by destruct (areAllCurrentPageArtworksSelected s q). }
  destruct (areAllCurrentPageArtworksSelected s q) eqn:Hall.
  - apply length_filter_none, Forall_forall. intros a Ha.
    rewrite clickSelectAll_on_page, Hall by done. done.
  - apply length_filter_all, Forall_forall. intros a Ha.
    rewrite clickSelectAll_on_page, Hall by done. done.
Qed.

(** X5: after "clear all" no id is selected, on this page or any other, both
    counts are zero, and so "clear all" itself goes off screen. *)
Theorem clearAll_clears (s : AppState) (q : QueryResult) :
  (∀ i, isArtworkSelected (clickClearAll s) i = false) ∧
  getTotalSelectedArtworkCount (clickClearAll s) = 0%nat ∧
  getCurrentPageSelectedCount (clickClearAll s) q = 0%nat ∧
  (∀ g, App (clickClearAll s) q = Gallery g → clearAllButton g = false).
Proof.
  assert (Hnone : ∀ i, isArtworkSelected (clickClearAll s) i = false)
    by (intros i; reflexivity).
  assert (Hzero : getTotalSelectedArtworkCount (clickClearAll s) = 0%nat)
    by (by apply getTotalSelectedArtworkCount_zero).
  split; [done|]. split; [done|]. split.
  - unfold getCurrentPageSelectedCount. case_bool_decide; [done|].
    apply length_filter_none, Forall_forall. intros a _. by rewrite Hnone.
  - intros g. unfold App. destruct (error q); [done|].
    destruct (_ && _); [done|]. destruct (_ || _); [done|].
    intros [= <-]. cbn [clearAllButton]. by rewrite Hzero.
Qed.

(** X6: a click on a row's checkbox changes the number of selected ids by
    exactly one: up when the row was not selected, down when it was. *)
Theorem clickRowCheckbox_count (s : AppState) (artworkId : Z) :
  if isArtworkSelected s artworkId
  then S (getTotalSelectedArtworkCount (clickRowCheckbox s artworkId))
       = getTotalSelectedArtworkCount s
  else getTotalSelectedArtworkCount (clickRowCheckbox s artworkId)
       = S (getTotalSelectedArtworkCount s).
Proof.
  replace s with (withSelection (selectedArtworkIds s) s) at 3 5 by (by destruct s).
  unfold clickRowCheckbox, toggleArtworkSelection.
  destruct (isArtworkSelected s artworkId) eqn:Hsel.
  - apply isArtworkSelected_true in Hsel.
    by apply (getTotalSelectedArtworkCount_unmark s).
  - apply isArtworkSelected_false in Hsel.
    by apply (getTotalSelectedArtworkCount_mark s).
Qed.

Lemma selected_ids_counted (s : AppState) (ids : list Z) (sel : gmap Z bool) :
  NoDup ids →
  (∀ i, i ∈ ids → sel !! i = Some true) →
  (length ids ≤ getTotalSelectedArtworkCount (withSelection sel s))%nat.
Proof.
  revert sel. induction ids as [|i ids IH]; intros sel Hnodup Hon; [cbn; lia|].
  apply NoDup_cons in Hnodup as [Hi Hnodup].
  rewrite <- (getTotalSelectedArtworkCount_unmark s sel i) by (apply Hon; by left).
  cbn [length]. apply le_n_S, IH; [done|].
  intros j Hj. rewrite lookup_insert_ne by (by intros ->). apply Hon. by right.
Qed.

(** X9: on a page whose records have distinct ids, the count for the page
    is at most the count over all pages. *)
Theorem getCurrentPageSelectedCount_le_total (s : AppState) (q : QueryResult) :
  NoDup (id <$> currentPageArtworks q) →
  (getCurrentPageSelectedCount s q ≤ getTotalSelectedArtworkCount s)%nat.
Proof.
  intros Hnodup. unfold getCurrentPageSelectedCount.
  case_bool_decide; [lia|].
  set (chosen := filter (λ artwork, isArtworkSelected s (id artwork) = true)
                        (currentPageArtworks q)).
  pose proof (selected_ids_counted s (id <$> chosen) (selectedArtworkIds s))
    as Hcounted.
  replace (withSelection (selectedArtworkIds s) s) with s in Hcounted
    by (by destruct s).
  rewrite length_fmap in Hcounted. apply Hcounted.
  - eapply sublist_NoDup; [exact Hnodup|]. apply fmap_sublist, sublist_filter.
  - intros i (a & -> & Ha)%list_elem_of_fmap.
    apply list_elem_of_filter in Ha as [Ha _]. by apply isArtworkSelected_true.
Qed.

(** ** The pager *)

(** The window, piece by piece. *)
Lemma getVisiblePageNumbers_parts (s : AppState) :
  getVisiblePageNumbers s
  = (if currentPage s - 2 >? 2 then [1; -1] else [1])
    ++ pushRange (Z.max 2 (currentPage s - 2))
                 (Z.min (totalPages s - 1) (currentPage s + 2))
    ++ (if currentPage s + 2 <? totalPages s - 1 then [-1; totalPages s]
        else if totalPages s >? 1 then [totalPages s] else []).
Proof.
  unfold getVisiblePageNumbers. cbn zeta.
  destruct (currentPage s + 2 <? totalPages s - 1); [by rewrite <- app_assoc|].
  destruct (totalPages s >? 1); [by rewrite <- app_assoc|].
  by rewrite app_nil_r.
Qed.

Lemma elem_of_pushRange (lo hi p : Z) : p ∈ pushRange lo hi ↔ lo ≤ p ≤ hi.
Proof. unfold pushRange. rewrite elem_of_seqZ. lia. Qed.

(** X10: the window always starts with page 1, and with more than one page
    it ends with the last page. *)
Theorem getVisiblePageNumbers_ends (s : AppState) :
  head (getVisiblePageNumbers s) = Some 1 ∧
  (1 < totalPages s → last (getVisiblePageNumbers s) = Some (totalPages s)).
Proof.
  rewrite getVisiblePageNumbers_parts. split.
  - by destruct (currentPage s - 2 >? 2).
  - intros Hmany. rewrite !app_assoc.
    destruct (currentPage s + 2 <? totalPages s - 1).
    + by rewrite (last_app_cons _ [totalPages s]).
    + rewrite (proj2 (Z.gtb_lt (totalPages s) 1)) by lia. apply last_snoc.
Qed.

(** X11: every page that exists and lies within two pages of the current one
    is in the window; in particular the current page is. *)
Theorem getVisiblePageNumbers_near (s : AppState) (p : Z) :
  1 ≤ p ≤ totalPages s →
  currentPage s - 2 ≤ p ≤ currentPage s + 2 →
  p ∈ getVisiblePageNumbers s.
Proof.
  intros Hexists Hnear. rewrite getVisiblePageNumbers_parts, !elem_of_app.
  destruct (decide (p = 1)) as [->|Hfirst].
  { left. destruct (currentPage s - 2 >? 2); by left. }
  destruct (decide (p = totalPages s)) as [->|Hlast].
  { right. right. destruct (currentPage s + 2 <? totalPages s - 1).
    - right. by left.
    - rewrite (proj2 (Z.gtb_lt (totalPages s) 1)) by lia. by left. }
  right. left. apply elem_of_pushRange. lia.
Qed.

(** X12: when there is at least one page, every entry of the window other
    than the ellipsis is a page that exists, so the button made from it
    navigates: [goToPage] of it makes it the current page. *)
Theorem getVisiblePageNumbers_buttons (s : AppState) (p : Z) :
  1 ≤ totalPages s →
  p ∈ getVisiblePageNumbers s →
  p ≠ -1 →
  1 ≤ p ≤ totalPages s ∧ currentPage (goToPage s p) = p.
Proof.
  intros Hpages Hin Hpage.
  assert (Hrange : 1 ≤ p ≤ totalPages s).
  { revert Hin. rewrite getVisiblePageNumbers_parts, !elem_of_app.
    rewrite elem_of_pushRange. intros [Hin|[Hin|Hin]]; [|lia|].
    - destruct (currentPage s - 2 >? 2);
        repeat (apply elem_of_cons in Hin as [->|Hin]); try done;
        by apply elem_of_nil in Hin.
    - destruct (currentPage s + 2 <? totalPages s - 1);
        [|destruct (totalPages s >? 1)];
        repeat (apply elem_of_cons in Hin as [->|Hin]); try done; try lia;
        by apply elem_of_nil in Hin. }
  split; [done|]. unfold goToPage.
  rewrite (proj2 (Z.geb_le p 1)), (proj2 (Z.leb_le p (totalPages s))) by lia. done.
Qed.

(** X13: the window never has more than nine entries, and from a current
    page of at least 1 no page number occurs in it twice. *)
Theorem getVisiblePageNumbers_compact (s : AppState) :
  (length (getVisiblePageNumbers s) ≤ 9)%nat ∧
  (1 ≤ currentPage s → NoDup (filter (λ p, p ≠ -1) (getVisiblePageNumbers s))).
Proof.
  rewrite getVisiblePageNumbers_parts. split.
  - rewrite !length_app. unfold pushRange. rewrite length_seqZ.
    destruct (currentPage s - 2 >? 2), (currentPage s + 2 <? totalPages s - 1),
      (totalPages s >? 1); cbn [length]; lia.
  - intros Hcur. rewrite !filter_app.
    assert (Hfirst : filter (λ p, p ≠ -1)
                       (if currentPage s - 2 >? 2 then [1; -1] else [1]) = [1])
      by (by destruct (currentPage s - 2 >? 2)).
    assert (Hrange : filter (λ p, p ≠ -1)
                       (pushRange (Z.max 2 (currentPage s - 2))
                          (Z.min (totalPages s - 1) (currentPage s + 2)))
                     ⊆ pushRange (Z.max 2 (currentPage s - 2))
                          (Z.min (totalPages s - 1) (currentPage s + 2))).
    { intros p Hp. by apply list_elem_of_filter in Hp as [_ Hp]. }
    rewrite Hfirst. apply NoDup_app. split; [apply NoDup_singleton|]. split.
    + intros p ->%list_elem_of_singleton. rewrite elem_of_app.
      intros [Hp%Hrange%elem_of_pushRange|Hp]; [lia|].
      destruct (currentPage s + 2 <? totalPages s - 1) eqn:Hfar;
        [apply Z.ltb_lt in Hfar|destruct (totalPages s >? 1) eqn:Hmany;
                                 [apply Z.gtb_lt in Hmany|]];
        apply list_elem_of_filter in Hp as [_ Hp];
        repeat (apply elem_of_cons in Hp as [Hp|Hp]); try lia;
        by apply elem_of_nil in Hp.
    + apply NoDup_app. split.
      { apply NoDup_filter, NoDup_seqZ. }
      split.
      * intros p Hp%Hrange%elem_of_pushRange Hlast.
        destruct (currentPage s + 2 <? totalPages s - 1);
          [|destruct (totalPages s >? 1)];
          apply list_elem_of_filter in Hlast as [_ Hlast];
          repeat (apply elem_of_cons in Hlast as [Hlast|Hlast]); try lia;
          by apply elem_of_nil in Hlast.
      * destruct (currentPage s + 2 <? totalPages s - 1) eqn:Hfar.
        -- apply Z.ltb_lt in Hfar. rewrite filter_cons_False by lia.
           rewrite filter_cons_True by lia. apply NoDup_singleton.
        -- destruct (totalPages s >? 1) eqn:Hmany; [|apply NoDup_nil_2].
           apply Z.gtb_lt in Hmany. rewrite filter_cons_True by lia.
           apply NoDup_singleton.
Qed.

(** ** Navigation, continued *)

(** X14: [goToPage] with a page outside [1..totalPages] leaves the whole
    state as it is; with a page inside it changes the current page to it and
    nothing else. *)
Theorem goToPage_bounds (s : AppState) (pageNumber : Z) :
  (¬ (1 ≤ pageNumber ≤ totalPages s) → goToPage s pageNumber = s) ∧
  (1 ≤ pageNumber ≤ totalPages s →
     goToPage s pageNumber = setCurrentPage pageNumber s).
Proof.
  unfold goToPage. split; intros Hrange.
  - destruct (pageNumber >=? 1) eqn:Hlo; [|done].
    destruct (pageNumber <=? totalPages s) eqn:Hhi; [|done].
    apply Z.geb_le in Hlo. apply Z.leb_le in Hhi. lia.
  - by rewrite (proj2 (Z.geb_le pageNumber 1)),
         (proj2 (Z.leb_le pageNumber (totalPages s))) by lia.
Qed.

(** X15: from a state whose current page is one of the pages there are,
    every navigation the pager offers stays among them: [goToPage] with any
    argument, first page, last page, and the previous and next buttons
    whenever they are enabled. *)
Theorem navigation_stays_in_range (s : AppState) (pageNumber : Z) :
  pageInRange s →
  pageInRange (goToPage s pageNumber) ∧
  pageInRange (goToFirstPage s) ∧
  pageInRange (goToLastPage s) ∧
  (isFirstPage s = false → pageInRange (clickPreviousPage s)) ∧
  (isLastPage s = false → pageInRange (clickNextPage s)).
Proof.
  unfold pageInRange. intros Hin. split; [|split; [|split; [|split]]].
  - unfold goToPage. destruct (_ && _) eqn:Hok; cbn; [|lia].
    apply andb_prop in Hok as [Hlo%Z.geb_le Hhi%Z.leb_le]. lia.
  - cbn. lia.
  - cbn. lia.
  - intros Henabled%bool_decide_eq_false. cbn. lia.
  - intros Henabled%bool_decide_eq_false. cbn. lia.
Qed.

(** X16: the effect that learns the page count makes the stored count equal
    to the one of the response on screen, changes nothing when there is no
    response, never touches the current page or the selection, and has
    nothing left to do when run again. *)
Theorem updateTotalPages_learns (s : AppState) (q : QueryResult) :
  totalPages (updateTotalPages s q)
  = match apiResponse q with
    | Some r => total_pages (pagination r)
    | None => totalPages s
    end ∧
  currentPage (updateTotalPages s q) = currentPage s ∧
  selectedArtworkIds (updateTotalPages s q) = selectedArtworkIds s ∧
  updateTotalPages (updateTotalPages s q) q = updateTotalPages s q.
Proof.
  unfold updateTotalPages, paginationInfo.
  destruct (apiResponse q) as [r|]; cbn; [|done].
  case_bool_decide as Hnew; cbn.
  - repeat split. by rewrite bool_decide_eq_false_2 by (by intros []).
  - repeat split; [done|].
    by rewrite bool_decide_eq_false_2 by (by intros []).
Qed.

(** ** The screens *)

Lemma getTotalSelectedArtworkCount_pos (s : AppState) :
  (0 < getTotalSelectedArtworkCount s)%nat ↔ ∃ i, isArtworkSelected s i = true.
Proof.
  split.
  - unfold getTotalSelectedArtworkCount.
    destruct (filter _ _) as [|b l] eqn:Hfilter; [cbn; lia|]. intros _.
    assert (Hb : b ∈ filter (λ isSelected : bool, isSelected = true)
                   (snd <$> map_to_list (selectedArtworkIds s)))
      by (rewrite Hfilter; by left).
    apply list_elem_of_filter in Hb as [-> Hb].
    apply list_elem_of_fmap in Hb as ([i b] & Hsnd & Hin). cbn in Hsnd. subst b.
    exists i. by apply isArtworkSelected_true, elem_of_map_to_list.
  - intros [i Hi].
    destruct (getTotalSelectedArtworkCount s) eqn:Hcount; [|lia].
    rewrite (proj1 (getTotalSelectedArtworkCount_zero s) Hcount i) in Hi. done.
Qed.

(** X17: the table is on screen exactly when the query reports no error and
    is not loading, no bulk selection is running and the page has records;
    its rows are then the records of the page. *)
Theorem App_gallery (s : AppState) (q : QueryResult) :
  ((∃ g, App s q = Gallery g)
   ↔ error q = None ∧ isLoading q = false ∧ isProcessingSelection s = false ∧
     currentPageArtworks q ≠ []) ∧
  (∀ g, App s q = Gallery g → rows g = currentPageArtworks q).
Proof.
  unfold App. destruct (error q) as [e|].
  { split; [|done]. split; [by intros [g ?] | by intros [? _]]. }
  destruct (isLoading q), (isProcessingSelection s); cbn [negb andb orb].
  1-3: by (split; [split; [intros [g ?]|intros (_ & ? & ? & _)]|]; try done;
           case_bool_decide).
  case_bool_decide as Hlen; split.
  - apply length_zero_iff_nil in Hlen.
    split; [by intros [g ?] | by intros (_ & _ & _ & ?)].
  - done.
  - split; [|eauto]. intros _. repeat split. by intros Hnil; rewrite Hnil in Hlen.
  - by intros g [= <-].
Qed.

(** X18: while a bulk selection is running the overlay "Selecting rows..." is
    on screen, unless the query failed or the page, fully loaded, has no
    records. *)
Theorem App_selecting (s : AppState) (q : QueryResult) :
  isProcessingSelection s = true →
  error q = None →
  isLoading q = true ∨ currentPageArtworks q ≠ [] →
  App s q = LoadingOverlay "Selecting rows...".
Proof.
  intros Hbusy Hok Hdata. unfold App. rewrite Hok, Hbusy, orb_true_r.
  destruct Hdata as [->|Hne]; [done|].
  rewrite bool_decide_eq_false_2; [by rewrite andb_false_r|].
  by intros Hlen%length_zero_iff_nil.
Qed.

(** X19: on the table screen the "clear all" button is there exactly when
    some id is selected, and the pager exactly when there is more than one
    page; the pager then shows [getVisiblePageNumbers]. *)
Theorem App_gallery_controls (s : AppState) (q : QueryResult) (g : GalleryView) :
  App s q = Gallery g →
  (clearAllButton g = true ↔ ∃ i, isArtworkSelected s i = true) ∧
  paginationBar g
  = (if bool_decide (1 < totalPages s) then Some (getVisiblePageNumbers s) else None) ∧
  selectedTotal g = getTotalSelectedArtworkCount s.
Proof.
  unfold App. destruct (error q); [done|].
  destruct (isLoading q), (isProcessingSelection s); cbn [negb andb orb];
    try done; try (by case_bool_decide).
  case_bool_decide as Hlen; [done|].
  assert (Hne : currentPageArtworks q ≠ [])
    by (by intros Hnil; rewrite Hnil in Hlen).
  intros [= <-]. cbn. split; [|split; [|done]].
  - rewrite bool_decide_eq_true. apply getTotalSelectedArtworkCount_pos.
  - rewrite bool_decide_eq_true_2
      by (destruct (currentPageArtworks q); [done | cbn; lia]).
    cbn [andb]. rewrite Z.gtb_ltb. by destruct (Z.ltb_spec 1 (totalPages s));
      [rewrite bool_decide_eq_true_2|rewrite bool_decide_eq_false_2 by lia].
Qed.

(** ** The "select rows" form *)

(** X20: when the input is not a number, or not a positive one,
    [handleSelectRows] shows the alert and does nothing else: no request, no
    console line, no change of the stored state. *)
Theorem handleSelectRows_rejects (parseInt : string → option Z) (s : AppState)
    (q : QueryResult) (net : Network) (b : Browser) :
  (parseInt (rowsToSelect s) = None ∨
   ∃ num, parseInt (rowsToSelect s) = Some num ∧ num ≤ 0) →
  handleSelectRows parseInt s q net b
  = (mkBrowser (world b) (stored b)
       (alerts b ++ ["Please enter a valid positive number of rows to select."]),
     Returned tt).
Proof.
  unfold handleSelectRows. cbn zeta. intros [->|(num & -> & Hnum)]; [done|].
  by rewrite (proj2 (Z.leb_le num 0)).
Qed.

(** X21: for a positive number, whatever the network does, [handleSelectRows]
    returns normally and shows no alert; in the state it leaves, the busy
    flag is off again, the input is empty and the dropdown closed, the
    current page and the page count are as stored before, and the selection
    is the mapping [performMultiPageSelection] computed for that number from
    the render's state. *)
Theorem handleSelectRows_runs (parseInt : string → option Z) (s : AppState)
    (q : QueryResult) (net : Network) (b : Browser) (num : Z) :
  parseInt (rowsToSelect s) = Some num →
  0 < num →
  ∃ w' sel' b',
    performMultiPageSelection s q net num (world b) = (w', Returned sel') ∧
    handleSelectRows parseInt s q net b = (b', Returned tt) ∧
    world b' = w' ∧
    alerts b' = alerts b ∧
    selectedArtworkIds (stored b') = sel' ∧
    isProcessingSelection (stored b') = false ∧
    rowsToSelect (stored b') = "" ∧
    isDropdownOpen (stored b') = false ∧
    currentPage (stored b') = currentPage (stored b) ∧
    totalPages (stored b') = totalPages (stored b).
Proof.
  intros Hparse Hnum.
  destruct (performMultiPageSelection_shape s q net num (world b))
    as (upto & w' & _ & _ & Hrun).
  eexists w', _, _. split; [exact Hrun|].
  unfold handleSelectRows. cbn zeta. rewrite Hparse.
  rewrite (proj2 (Z.leb_gt num 0)) by done.
  unfold act_bind, try_finally, await, setState. cbn [world stored alerts].
  rewrite Hrun. cbn. done.
Qed.

(** ** The fetch gateway, the other outcomes *)

(** X22: whatever the network does, [fetchArtworks] makes exactly one
    request, for the page asked; it writes one console line, with the error
    it throws, when it throws, and none when it returns. *)
Theorem fetchArtworks_one_request (net : Network) (pageNumber : Z) (w : World) :
  requests (fetchArtworks net pageNumber w).1 = requests w ++ [pageNumber] ∧
  match (fetchArtworks net pageNumber w).2 with
  | Returned _ => console (fetchArtworks net pageNumber w).1 = console w
  | Threw e =>
      console (fetchArtworks net pageNumber w).1
      = console w ++ [mkLog "Error fetching artworks:" e]
  end.
Proof.
  rewrite fetchArtworks_settles. by destruct (fetched net pageNumber).
Qed.

(** X23: a response with a status in 200-299 whose body decodes is returned
    as it is, with nothing logged. *)
Theorem fetchArtworks_success (net : Network) (pageNumber : Z) (w : World)
    (st : Z) (d : ArtworkApiResponse) :
  net pageNumber = Resolved (mkHttp st (inr d)) →
  200 ≤ st ≤ 299 →
  fetchArtworks net pageNumber w
  = (mkWorld (requests w ++ [pageNumber]) (console w), Returned d).
Proof.
  intros Hnet Hok. rewrite fetchArtworks_settles. unfold fetched, ok.
  rewrite Hnet. cbn [status json]. by rewrite bool_decide_eq_true_2.
Qed.

(** X24: a request that fails in transit, and a successful response whose
    body does not decode, both end in the very error of the transport or of
    the decoder being logged and thrown again. *)
Theorem fetchArtworks_rethrows (net : Network) (pageNumber : Z) (w : World)
    (e : Thrown) :
  (net pageNumber = Rejected e ∨
   ∃ st, net pageNumber = Resolved (mkHttp st (inl e)) ∧ 200 ≤ st ≤ 299) →
  fetchArtworks net pageNumber w
  = (mkWorld (requests w ++ [pageNumber])
             (console w ++ [mkLog "Error fetching artworks:" e]),
     Threw e).
Proof.
  intros Hnet. rewrite fetchArtworks_settles. unfold fetched, ok.
  destruct Hnet as [->|(st & -> & Hok)]; [done|].
  cbn [status json]. by rewrite bool_decide_eq_true_2.
Qed.

(** ** The cells *)

Lemma length_append (s1 s2 : string) :
  String.length (s1 +:+ s2) = (String.length s1 + String.length s2)%nat.
Proof.
  induction s1 as [|c s1 IH]; [done|].
  change (S (String.length (s1 +:+ s2)) = S (String.length s1 + String.length s2)).
  by rewrite IH.
Qed.

Lemma substring0_prefix (n : nat) (text : string) :
  (n ≤ String.length text)%nat →
  ∃ rest, text = String.substring 0 n text +:+ rest ∧
          String.length (String.substring 0 n text) = n.
Proof.
  revert text. induction n as [|n IH]; intros text Hn.
  - exists text. by destruct text.
  - destruct text as [|c text]; cbn in Hn; [lia|].
    destruct (IH text ltac:(lia)) as (rest & Hrest & Hlen).
    exists rest. simpl. split; [|by rewrite Hlen].
    rewrite Hrest at 1. reflexivity.
Qed.

Lemma truncateLongText_length (text : option string) (maxLength : Z) :
  0 ≤ maxLength →
  Z.of_nat (String.length (truncateLongText text maxLength)) ≤ maxLength + 3.
Proof.
  intros Hmax. destruct text as [[|c t]|]; [cbn; lia| |cbn; lia].
  unfold truncateLongText, substring0. set (whole := String c t).
  destruct (Z.leb_spec (Z.of_nat (String.length whole)) maxLength) as [Hfits|Hlong];
    [lia|].
  destruct (substring0_prefix (Z.to_nat maxLength) whole ltac:(lia))
    as (rest & _ & Hlen).
  rewrite length_append, Hlen. cbn. lia.
Qed.

(** X25: [truncateLongText] shows "N/A" for a missing or empty text, a text
    of at most [maxLength] characters as it is, and of a longer one its first
    [maxLength] characters followed by "..."; so for [maxLength] of at least
    0 the result is never longer than [maxLength + 3]. *)
Theorem truncateLongText_fits (text : option string) (maxLength : Z) :
  0 ≤ maxLength →
  Z.of_nat (String.length (truncateLongText text maxLength)) ≤ maxLength + 3 ∧
  match text with
  | None | Some "" => truncateLongText text maxLength = "N/A"
  | Some t =>
      if decide (Z.of_nat (String.length t) ≤ maxLength)
      then truncateLongText text maxLength = t
      else ∃ kept rest,
             t = kept +:+ rest ∧
             Z.of_nat (String.length kept) = maxLength ∧
             truncateLongText text maxLength = kept +:+ "..."
  end.
Proof.
  intros Hmax. destruct text as [[|c t]|]; [cbn; split; [lia|done]| |cbn; split; [lia|done]].
  unfold truncateLongText, substring0.
  set (whole := String c t).
  destruct (Z.leb_spec (Z.of_nat (String.length whole)) maxLength) as [Hfits|Hlong].
  - rewrite decide_True by done. split; [lia|done].
  - rewrite decide_False by lia.
    destruct (substring0_prefix (Z.to_nat maxLength) whole ltac:(lia))
      as (rest & Hrest & Hlen).
    split.
    + rewrite length_append, Hlen. cbn. lia.
    + exists (String.substring 0 (Z.to_nat maxLength) whole), rest.
      split; [done|]. split; [lia|done].
Qed.

Lemma pretty_N_go_nonempty (x : N) (acc : string) :
  acc ≠ "" → pretty_N_go x acc ≠ "".
Proof.
  revert acc. induction (N.lt_wf_0 x) as [x _ IH]; intros acc Hacc.
  destruct (decide (x = 0)%N) as [->|Hpos]; [by rewrite pretty_N_go_0|].
  rewrite pretty_N_go_step by lia. apply IH; [|done].
  apply N.div_lt; lia.
Qed.

Lemma number_to_string_nonempty (n : Z) : number_to_string n ≠ "".
Proof.
  assert (Hpos : ∀ p : positive, pretty p ≠ "").
  { intros p. unfold pretty, pretty_positive, pretty, pretty_N.
    rewrite decide_False by done.
    rewrite pretty_N_go_step by lia. by apply pretty_N_go_nonempty. }
  unfold number_to_string, pretty, pretty_Z. destruct n as [|p|p]; [done|apply Hpos|done].
Qed.

(** X26: no cell of the table is ever blank: [formatDisplayValue] gives "N/A"
    for a missing or empty value and the value's own text otherwise, and
    the cell for the inscriptions is never longer than 43 characters. *)
Theorem cells_never_blank (artwork : Artwork) :
  Forall (λ cell, cell ≠ "")
    [renderArtworkTitle artwork; renderPlaceOfOrigin artwork;
     renderArtistName artwork; renderInscriptions artwork;
     renderStartDate artwork; renderEndDate artwork] ∧
  (String.length (renderInscriptions artwork) ≤ 43)%nat.
Proof.
  assert (Hformat : ∀ value, formatDisplayValue value ≠ "").
  { intros [[[|c t]|n]|]; cbn; try done. apply number_to_string_nonempty. }
  assert (Hinscr : renderInscriptions artwork ≠ "").
  { unfold renderInscriptions, truncateLongText.
    destruct (inscriptions artwork) as [[|c t]|]; [done| |done].
    destruct (_ <=? _); [done|].
    destruct (substring0 40 (String c t)); done. }
  split.
  - repeat (apply Forall_cons; split); try apply Hformat; try done.
  - pose proof (truncateLongText_length (inscriptions artwork) 40 ltac:(lia)).
    unfold renderInscriptions. lia.
Qed.

(** ** The further theorems at sample inputs *)

Lemma performMultiPageSelection_current_page_enough_witness :
  performMultiPageSelection sampleState sampleQuery sampleNet 2 emptyWorld
  = (emptyWorld,
     Returned (foldl (λ sel i, <[i := true]> sel) (selectedArtworkIds sampleState)
                 (id <$> take (Z.to_nat 2) (currentPageArtworks sampleQuery)))).
Proof. apply performMultiPageSelection_current_page_enough. cbn. lia. Defined.

Lemma performMultiPageSelection_frame_witness :
  ∃ w' sel',
    performMultiPageSelection sampleState sampleQuery sampleNet 4 emptyWorld
    = (w', Returned sel') ∧
    sel' !! 7 = selectedArtworkIds sampleState !! 7.
Proof.
  apply performMultiPageSelection_frame.
  apply (bool_decide_unpack _). vm_compute. exact I.
Defined.

Lemma getCurrentPageSelectedCount_all_witness :
  getCurrentPageSelectedCount (clickSelectAll sampleState sampleQuery) sampleQuery
  = length (currentPageArtworks sampleQuery)
  ↔ areAllCurrentPageArtworksSelected (clickSelectAll sampleState sampleQuery)
      sampleQuery = true.
Proof.
  apply (getCurrentPageSelectedCount_all (clickSelectAll sampleState sampleQuery)
           sampleQuery).
  discriminate.
Defined.

Lemma getCurrentPageSelectedCount_le_total_witness :
  (getCurrentPageSelectedCount (clickRowCheckbox sampleState 11) sampleQuery
   ≤ getTotalSelectedArtworkCount (clickRowCheckbox sampleState 11))%nat.
Proof.
  apply getCurrentPageSelectedCount_le_total.
  apply (bool_decide_unpack _). vm_compute. exact I.
Defined.

Lemma getVisiblePageNumbers_ends_witness :
  last (getVisiblePageNumbers sampleState) = Some (totalPages sampleState).
Proof. apply (getVisiblePageNumbers_ends sampleState). cbn. lia. Defined.

Lemma getVisiblePageNumbers_near_witness :
  3 ∈ getVisiblePageNumbers sampleState.
Proof. apply getVisiblePageNumbers_near; cbn; lia. Defined.

Lemma getVisiblePageNumbers_buttons_witness :
  1 ≤ 3 ≤ totalPages scenarioState ∧ currentPage (goToPage scenarioState 3) = 3.
Proof.
  apply getVisiblePageNumbers_buttons.
  - cbn. lia.
  - apply (bool_decide_unpack _). vm_compute. exact I.
  - lia.
Defined.

Lemma getVisiblePageNumbers_compact_witness :
  NoDup (filter (λ p, p ≠ -1) (getVisiblePageNumbers scenarioState)).
Proof. apply (getVisiblePageNumbers_compact scenarioState). cbn. lia. Defined.

Lemma goToPage_bounds_witness :
  goToPage sampleState 4 = sampleState ∧
  goToPage sampleState 2 = setCurrentPage 2 sampleState.
Proof.
  split.
  - apply (goToPage_bounds sampleState 4). cbn. lia.
  - apply (goToPage_bounds sampleState 2). cbn. lia.
Defined.

Lemma navigation_stays_in_range_witness :
  pageInRange (goToPage sampleState 7) ∧
  pageInRange (goToFirstPage sampleState) ∧
  pageInRange (goToLastPage sampleState) ∧
  (isFirstPage sampleState = false → pageInRange (clickPreviousPage sampleState)) ∧
  (isLastPage sampleState = false → pageInRange (clickNextPage sampleState)).
Proof. apply navigation_stays_in_range. unfold pageInRange. cbn. lia. Defined.

Lemma App_selecting_witness :
  App (setIsProcessingSelection true sampleState) sampleQuery
  = LoadingOverlay "Selecting rows...".
Proof.
  apply App_selecting; [reflexivity | reflexivity | right; discriminate].
Defined.

Lemma App_gallery_controls_witness :
  ∃ g,
    App (clickRowCheckbox sampleState 11) sampleQuery = Gallery g ∧
    (clearAllButton g = true
     ↔ ∃ i, isArtworkSelected (clickRowCheckbox sampleState 11) i = true) ∧
    paginationBar g
    = (if bool_decide (1 < totalPages (clickRowCheckbox sampleState 11))
       then Some (getVisiblePageNumbers (clickRowCheckbox sampleState 11))
       else None) ∧
    selectedTotal g = getTotalSelectedArtworkCount (clickRowCheckbox sampleState 11).
Proof.
  eexists. split; [vm_compute; reflexivity|].
  apply (App_gallery_controls (clickRowCheckbox sampleState 11) sampleQuery).
  vm_compute. reflexivity.
Defined.

Lemma handleSelectRows_rejects_witness :
  handleSelectRows sampleParseInt sampleState sampleQuery sampleNet sampleBrowser
  = (mkBrowser (world sampleBrowser) (stored sampleBrowser)
       (alerts sampleBrowser
        ++ ["Please enter a valid positive number of rows to select."]),
     Returned tt).
Proof. apply handleSelectRows_rejects. left. reflexivity. Defined.

Lemma handleSelectRows_runs_witness :
  ∃ w' sel' b',
    performMultiPageSelection sampleForm sampleQuery sampleNet 3 (world sampleBrowser)
    = (w', Returned sel') ∧
    handleSelectRows sampleParseInt sampleForm sampleQuery sampleNet sampleBrowser
    = (b', Returned tt) ∧
    world b' = w' ∧
    alerts b' = alerts sampleBrowser ∧
    selectedArtworkIds (stored b') = sel' ∧
    isProcessingSelection (stored b') = false ∧
    rowsToSelect (stored b') = "" ∧
    isDropdownOpen (stored b') = false ∧
    currentPage (stored b') = currentPage (stored sampleBrowser) ∧
    totalPages (stored b') = totalPages (stored sampleBrowser).
Proof. apply handleSelectRows_runs; [reflexivity | lia]. Defined.

Lemma fetchArtworks_success_witness :
  fetchArtworks sampleNet 2 emptyWorld
  = (mkWorld (requests emptyWorld ++ [2]) (console emptyWorld),
     Returned (page [21] 3)).
Proof. apply (fetchArtworks_success sampleNet 2 emptyWorld 200); [reflexivity | lia]. Defined.

Lemma fetchArtworks_rethrows_witness :
  fetchArtworks (λ _, Rejected (ErrorObj "Failed to fetch")) 1 emptyWorld
  = (mkWorld (requests emptyWorld ++ [1])
       (console emptyWorld
        ++ [mkLog "Error fetching artworks:" (ErrorObj "Failed to fetch")]),
     Threw (ErrorObj "Failed to fetch")).
Proof. apply fetchArtworks_rethrows. left. reflexivity. Defined.

Lemma truncateLongText_fits_witness :
  Z.of_nat (String.length (truncateLongText (Some "inscribed") 4)) ≤ 4 + 3 ∧
  ∃ kept rest,
    "inscribed" = kept +:+ rest ∧
    Z.of_nat (String.length kept) = 4 ∧
    truncateLongText (Some "inscribed") 4 = kept +:+ "...".
Proof. apply (truncateLongText_fits (Some "inscribed") 4). lia. Defined.

Example truncateLongText_run : truncateLongText (Some "inscribed") 4 = "insc...".
Proof. reflexivity. Qed.
